(** * Amana Bookstore: the data-access services and the cart route

    A shallow embedding of the service layer of the bookstore
    ([lib/services/books.ts], [lib/services/cart.ts],
    [lib/services/reviews.ts]) and of the [POST /api/cart] and
    [POST /api/reviews] handlers, together with the properties the
    specification states about them.

    Modelling conventions.
    - A MongoDB collection is the list of its documents in natural
      (insertion) order, each carrying its [_id]; [findOne],
      [findOneAndUpdate] and [deleteOne] act on the first match.
    - Every driver call on a collection is counted in [roundtrips], so that
      "without touching storage" is observable.
    - [async] functions become computations in a state-and-exception monad
      over the collection; a rejected promise is [Throw].  The store is
      taken to be reachable: a driver call fails only where the store's
      rules make it fail (a duplicate [_id] on insert), and [new ObjectId]
      fails on a malformed string.
    - The ObjectId the driver generates for an insert and the reading of
      the clock ([new Date().toISOString()]) are explicit arguments.
    - Cart quantities are JavaScript numbers holding integers; they are
      modelled by [Z], and their addition by [js_add]: the exact sum
      rounded to the nearest double, which is the exact sum as long as it
      is a safe integer. *)

From Stdlib Require Import ZArith NArith Ascii String Bool Lia QArith.
From stdpp Require Import base tactics option strings proof_irrel gmap list.

#[local] Open Scope string_scope.
#[local] Open Scope list_scope.
#[local] Open Scope Z_scope.

(** ** The driver's ObjectId *)

(** [ObjectId] comes from the [mongodb] package, which is not part of the
    repository: its operations are an interface.  [newObjectId s] is
    [new ObjectId(s)], [None] when the constructor throws; [isValid] is
    [ObjectId.isValid], which holds exactly when the constructor succeeds;
    an ObjectId prints to a hex string from which it can be rebuilt. *)
Class ObjectIdApi := {
  ObjectId : Type;
  ObjectId_eq_dec :: EqDecision ObjectId;
  isValid : string -> bool;
  newObjectId : string -> option ObjectId;
  toHexString : ObjectId -> string;
  isValid_newObjectId : forall s, isValid s = true <-> is_Some (newObjectId s);
  newObjectId_toHexString : forall o, newObjectId (toHexString o) = Some o
}.

(** ** Promises: state and exceptions *)

Inductive Error :=
| InvalidBookID          (* new Error('Invalid Book ID') *)
| BSONError              (* new ObjectId(s) on a malformed s *)
| DuplicateKey           (* E11000 on insertOne *)
| Failure (message : string). (* the services' own new Error(message) *)

Inductive Result (A : Type) :=
| Ok (a : A)
| Throw (e : Error).
Arguments Ok {A} a.
Arguments Throw {A} e.

Definition M (S A : Type) : Type := S -> Result A * S.

Definition ret {S A} (a : A) : M S A := fun s => (Ok a, s).
Definition throw {S A} (e : Error) : M S A := fun s => (Throw e, s).
Definition bind {S A B} (m : M S A) (k : A -> M S B) : M S B :=
  fun s => match m s with
           | (Ok a, s') => k a s'
           | (Throw e, s') => (Throw e, s')
           end.

Notation "'let!' x ':=' m 'in' k" := (bind m (fun x => k))
  (at level 10, x name, m at level 100, k at level 200).

(** ** Collections *)

Section Collections.
Context `{ObjectIdApi}.

(** The driver's [WithId<T>]: a stored document and its [_id]. *)
Record WithId (T : Type) := mkDoc { _id : ObjectId; doc : T }.
Arguments mkDoc {T} _ _.
Arguments _id {T} _.
Arguments doc {T} _.

Record Collection (T : Type) := mkColl {
  docs : list (WithId T);
  roundtrips : nat
}.
Arguments mkColl {T} _ _.
Arguments docs {T} _.
Arguments roundtrips {T} _.

Definition ids {T} (l : list (WithId T)) : list ObjectId := _id <$> l.

(** One more driver call on the collection. *)
Definition touch {T} (c : Collection T) (l : list (WithId T)) : Collection T :=
  mkColl l (S (roundtrips c)).

(** The filter [{ _id: o }]. *)
Definition by_id {T} (o : ObjectId) (d : WithId T) : bool :=
  bool_decide (_id d = o).

(** [collection.find(q).toArray()] *)
Definition find {T} (q : WithId T -> bool) : M (Collection T) (list (WithId T)) :=
  fun c => (Ok (filter (fun d => q d = true) (docs c)), touch c (docs c)).

(** [collection.findOne(q)] *)
Definition findOne {T} (q : WithId T -> bool) : M (Collection T) (option (WithId T)) :=
  fun c => (Ok (List.find q (docs c)), touch c (docs c)).

(** [collection.insertOne(d)]: the driver stamps the document with the
    ObjectId it generated; the unique index on [_id] rejects a
    duplicate.  Returns [insertedId]. *)
Definition insertOne {T} (newId : ObjectId) (d : T) : M (Collection T) ObjectId :=
  fun c =>
    if bool_decide (newId ∈ ids (docs c))
    then (Throw DuplicateKey, touch c (docs c))
    else (Ok newId, touch c (docs c ++ [mkDoc newId d])).

(** A document after an update of its fields: the [_id] stays. *)
Definition updated {T} (f : T -> T) (d : WithId T) : WithId T :=
  mkDoc (_id d) (f (doc d)).

(** Replace the first document matching [q] by its image under [f]. *)
Fixpoint update_first {T} (q : WithId T -> bool) (f : T -> T)
    (l : list (WithId T)) : list (WithId T) :=
  match l with
  | [] => []
  | d :: l' =>
      if q d then updated f d :: l'
      else d :: update_first q f l'
  end.

(** [collection.findOneAndUpdate(q, { $set: ... }, { returnDocument: 'after' })],
    where [f] is the effect of the [$set] on a document; a [$set] of no
    field changes nothing. *)
Definition findOneAndUpdate {T} (q : WithId T -> bool) (f : T -> T)
    : M (Collection T) (option (WithId T)) :=
  fun c =>
    (Ok (updated f <$> List.find q (docs c)),
     touch c (update_first q f (docs c))).

(** Remove the first document matching [q]. *)
Fixpoint remove_first {T} (q : WithId T -> bool) (l : list (WithId T))
    : list (WithId T) :=
  match l with
  | [] => []
  | d :: l' => if q d then l' else d :: remove_first q l'
  end.

(** [collection.deleteOne(q)], returning [deletedCount]. *)
Definition deleteOne {T} (q : WithId T -> bool) : M (Collection T) nat :=
  fun c =>
    (Ok (match List.find q (docs c) with Some _ => 1%nat | None => 0%nat end),
     touch c (remove_first q (docs c))).

(** [collection.deleteMany({})], returning [deletedCount]. *)
Definition deleteMany_all {T} : M (Collection T) nat :=
  fun c => (Ok (length (docs c)), touch c []).

(** [new ObjectId(s)] as a step of a computation. *)
Definition construct {S} (s : string) : M S ObjectId :=
  match newObjectId s with
  | Some o => ret o
  | None => throw BSONError
  end.
End Collections.

Arguments mkDoc {_ T} _ _.
Arguments _id {_ T} _.
Arguments doc {_ T} _.
Arguments mkColl {_ T} _ _.
Arguments docs {_ T} _.
Arguments roundtrips {_ T} _.

(** ** JavaScript numbers that hold integers *)

(** [Number.MAX_SAFE_INTEGER] *)
Definition MAX_SAFE_INTEGER : Z := 2 ^ 53 - 1.

(** The double nearest to an integer, ties to the even mantissa: integers
    below [2 ^ 53] in magnitude are doubles; from there on a double has a
    53-bit mantissa [m] and an exponent [e], and the doubles are [2 ^ e]
    apart.  (From [2 ^ 1024] on the code has [Infinity], which is not an
    integer: no statement below speaks of sums of that size.) *)
Definition round_to_double (z : Z) : Z :=
  let a := Z.abs z in
  if a <? 2 ^ 53 then z else
  let e := Z.log2 a - 52 in
  let m := Z.shiftr a e in
  let r := a - Z.shiftl m e in
  let half := 2 ^ (e - 1) in
  let m' := if (half <? r) || ((r =? half) && Z.odd m) then m + 1 else m in
  Z.sgn z * Z.shiftl m' e.

(** [a + b] on two such numbers. *)
Definition js_add (a b : Z) : Z := round_to_double (a + b).

(** ** The cart service, [lib/services/cart.ts] *)

Module Cart.
Section Cart.
Context `{ObjectIdApi}.

(** [interface CartItemDocument] *)
Record CartItemDocument := mkCartDoc {
  bookId : ObjectId;
  quantity : Z;
  addedAt : string
}.

(** The service's result type [CartItem]: identifiers as strings. *)
Record CartItem := mkCartItem {
  item_id : string;
  item_bookId : string;
  item_quantity : Z;
  item_addedAt : string
}.

(** The argument of [addCartItem]. *)
Record ItemData := mkItemData { data_bookId : string; data_quantity : Z }.

Definition CartColl := Collection CartItemDocument.

(** [{ $set: { quantity: q } }] *)
Definition set_quantity (q : Z) (d : CartItemDocument) : CartItemDocument :=
  mkCartDoc (bookId d) q (addedAt d).

(** The filter [{ bookId: o }]. *)
Definition by_bookId (o : ObjectId) (d : WithId CartItemDocument) : bool :=
  bool_decide (bookId (doc d) = o).

Definition mapMongoId (d : WithId CartItemDocument) : CartItem :=
  mkCartItem (toHexString (_id d)) (toHexString (bookId (doc d)))
             (quantity (doc d)) (addedAt (doc d)).

Definition getCart : M CartColl (list CartItem) :=
  let! documents := find (fun _ => true) in
  ret (mapMongoId <$> documents).

Definition addCartItem (newId : ObjectId) (now : string) (itemData : ItemData)
    : M CartColl CartItem :=
  if negb (isValid (data_bookId itemData)) then throw InvalidBookID else
  let! bookObjectId := construct (data_bookId itemData) in
  let! existingItem := findOne (by_bookId bookObjectId) in
  match existingItem with
  | Some existing =>
      let newQuantity := js_add (quantity (doc existing)) (data_quantity itemData) in
      let! result := findOneAndUpdate (by_id (_id existing)) (set_quantity newQuantity) in
      match result with
      | None => throw (Failure "Failed to update cart item")
      | Some r => ret (mapMongoId r)
      end
  | None =>
      let newItemDocument := mkCartDoc bookObjectId (data_quantity itemData) now in
      let! insertedId := insertOne newId newItemDocument in
      let! newItem := findOne (by_id insertedId) in
      match newItem with
      | None => throw (Failure "Failed to create and retrieve cart item")
      | Some n => ret (mapMongoId n)
      end
  end.

Definition removeCartItem (cartItemId : string) : M CartColl bool :=
  if negb (isValid cartItemId) then ret false else
  let! o := construct cartItemId in
  let! deletedCount := deleteOne (by_id o) in
  ret (Nat.eqb deletedCount 1).

Definition updateCartItemQuantity (cartItemId : string) (q : Z)
    : M CartColl (option CartItem) :=
  if negb (isValid cartItemId) then ret None else
  if q <=? 0 then
    let! _deleted := removeCartItem cartItemId in
    ret None
  else
    let! o := construct cartItemId in
    let! result := findOneAndUpdate (by_id o) (set_quantity q) in
    ret (mapMongoId <$> result).

Definition clearCart : M CartColl nat := deleteMany_all.
End Cart.
End Cart.

(** ** The review service, [lib/services/reviews.ts] *)

Module Reviews.
Section Reviews.
Context `{ObjectIdApi}.

(** [interface ReviewDocument] *)
Record ReviewDocument := mkReviewDoc {
  bookId : ObjectId;
  author : string;
  rating : Z;
  title : string;
  comment : string;
  timestamp : string;
  verified : bool
}.

(** The service's result type [Review]: identifiers as strings. *)
Record Review := mkReview {
  r_id : string;
  r_bookId : string;
  r_author : string;
  r_rating : Z;
  r_title : string;
  r_comment : string;
  r_timestamp : string;
  r_verified : bool
}.

(** The argument of [createReview], [Omit<Review, 'id'>].  The service
    reads [verified] through [|| false], so an absent flag is kept
    apart from a supplied one. *)
Record ReviewData := mkReviewData {
  in_bookId : string;
  in_author : string;
  in_rating : Z;
  in_title : string;
  in_comment : string;
  in_timestamp : string;
  in_verified : option bool
}.

(** The argument of [updateReview], [Partial<Omit<Review, 'id'>>]. *)
Record ReviewUpdates := mkReviewUpdates {
  u_bookId : option string;
  u_author : option string;
  u_rating : option Z;
  u_title : option string;
  u_comment : option string;
  u_timestamp : option string;
  u_verified : option bool
}.

(** [dbUpdates : Partial<ReviewDocument>] *)
Record DbUpdates := mkDbUpdates {
  db_bookId : option ObjectId;
  db_author : option string;
  db_rating : option Z;
  db_title : option string;
  db_comment : option string;
  db_timestamp : option string;
  db_verified : option bool
}.

Definition ReviewColl := Collection ReviewDocument.

(** [{ $set: dbUpdates }]: the supplied fields replace the stored ones. *)
Definition set_fields (u : DbUpdates) (d : ReviewDocument) : ReviewDocument :=
  mkReviewDoc (default (bookId d) (db_bookId u))
              (default (author d) (db_author u))
              (default (rating d) (db_rating u))
              (default (title d) (db_title u))
              (default (comment d) (db_comment u))
              (default (timestamp d) (db_timestamp u))
              (default (verified d) (db_verified u)).

(** The filter [{ bookId: o }]. *)
Definition by_bookId (o : ObjectId) (d : WithId ReviewDocument) : bool :=
  bool_decide (bookId (doc d) = o).

Definition mapMongoId (d : WithId ReviewDocument) : Review :=
  mkReview (toHexString (_id d)) (toHexString (bookId (doc d)))
           (author (doc d)) (rating (doc d)) (title (doc d))
           (comment (doc d)) (timestamp (doc d)) (verified (doc d)).

Definition getAllReviews : M ReviewColl (list Review) :=
  let! documents := find (fun _ => true) in
  ret (mapMongoId <$> documents).

Definition getReviewById (id : string) : M ReviewColl (option Review) :=
  if negb (isValid id) then ret None else
  let! o := construct id in
  let! document := findOne (by_id o) in
  ret (mapMongoId <$> document).

Definition getReviewsByBookId (bookId : string) : M ReviewColl (option (list Review)) :=
  if negb (isValid bookId) then ret None else
  let! o := construct bookId in
  let! documents := find (by_bookId o) in
  ret (Some (mapMongoId <$> documents)).

(** The source obtains the collection ([getReviewsCollection]) before it
    converts the book reference; with a reachable store that leaves the
    collection as it is, and it is not one of the calls on the collection
    that [roundtrips] counts. *)
Definition createReview (newId : ObjectId) (now : string) (reviewData : ReviewData)
    : M ReviewColl Review :=
  let! o := construct (in_bookId reviewData) in
  let reviewDocument :=
    mkReviewDoc o (in_author reviewData) (in_rating reviewData)
                (in_title reviewData) (in_comment reviewData)
                now
                (default false (in_verified reviewData)) in
  let! insertedId := insertOne newId reviewDocument in
  let! newReview := findOne (by_id insertedId) in
  match newReview with
  | None => throw (Failure "Failed to create and retrieve the new review.")
  | Some n => ret (mapMongoId n)
  end.

(** [bookId && ObjectId.isValid(bookId)]: the empty string is falsy. *)
Definition usable_bookId (b : option string) : option string :=
  match b with
  | Some s => if negb (String.eqb s "") && isValid s then Some s else None
  | None => None
  end.

Definition updateReview (id : string) (updates : ReviewUpdates)
    : M ReviewColl (option Review) :=
  if negb (isValid id) then ret None else
  let restOfUpdates :=
    mkDbUpdates None (u_author updates) (u_rating updates) (u_title updates)
                (u_comment updates) (u_timestamp updates) (u_verified updates) in
  let! dbUpdates :=
    match usable_bookId (u_bookId updates) with
    | Some b =>
        let! o := construct b in
        ret (mkDbUpdates (Some o) (db_author restOfUpdates) (db_rating restOfUpdates)
                         (db_title restOfUpdates) (db_comment restOfUpdates)
                         (db_timestamp restOfUpdates) (db_verified restOfUpdates))
    | None => ret restOfUpdates
    end in
  let! o := construct id in
  let! result := findOneAndUpdate (by_id o) (set_fields dbUpdates) in
  ret (mapMongoId <$> result).

Definition deleteReview (id : string) : M ReviewColl bool :=
  if negb (isValid id) then ret false else
  let! o := construct id in
  let! deletedCount := deleteOne (by_id o) in
  ret (Nat.eqb deletedCount 1).
End Reviews.
End Reviews.

(** ** The catalog service, [lib/services/books.ts] *)

Module Books.
Section Books.
Context `{ObjectIdApi}.

(** Modelled from the spec: the [Book] type of [app/types], which the
    service imports and which is not among the sources.  The attributes
    are those of the specification's data model, under the names the
    [POST /api/books] handler requires.  [Omit<Book, 'id'>]: *)
Record BookData := mkBookData {
  title : string;
  author : string;
  description : string;
  price : Q;
  image : string;
  isbn : string;
  genre : list string;
  tags : list string;
  datePublished : string;
  pages : Z;
  language : string;
  publisher : string;
  rating : Q;
  reviewCount : Z;
  inStock : bool;
  featured : bool
}.

(** [Book]: the attributes and the identifier as a string. *)
Record Book := mkBook { id : string; fields : BookData }.

(** [Partial<Omit<Book, 'id'>>] *)
Record BookUpdates := mkBookUpdates {
  u_title : option string;
  u_author : option string;
  u_description : option string;
  u_price : option Q;
  u_image : option string;
  u_isbn : option string;
  u_genre : option (list string);
  u_tags : option (list string);
  u_datePublished : option string;
  u_pages : option Z;
  u_language : option string;
  u_publisher : option string;
  u_rating : option Q;
  u_reviewCount : option Z;
  u_inStock : option bool;
  u_featured : option bool
}.

Definition BookColl := Collection BookData.

(** [{ $set: updates }] *)
Definition set_fields (u : BookUpdates) (b : BookData) : BookData :=
  mkBookData (default (title b) (u_title u))
             (default (author b) (u_author u))
             (default (description b) (u_description u))
             (default (price b) (u_price u))
             (default (image b) (u_image u))
             (default (isbn b) (u_isbn u))
             (default (genre b) (u_genre u))
             (default (tags b) (u_tags u))
             (default (datePublished b) (u_datePublished u))
             (default (pages b) (u_pages u))
             (default (language b) (u_language u))
             (default (publisher b) (u_publisher u))
             (default (rating b) (u_rating u))
             (default (reviewCount b) (u_reviewCount u))
             (default (inStock b) (u_inStock u))
             (default (featured b) (u_featured u)).

Definition mapMongoId (d : WithId BookData) : Book :=
  mkBook (toHexString (_id d)) (doc d).

Definition getAllBooks : M BookColl (list Book) :=
  let! documents := find (fun _ => true) in
  ret (mapMongoId <$> documents).

Definition getBookById (id : string) : M BookColl (option Book) :=
  if negb (isValid id) then ret None else
  let! o := construct id in
  let! document := findOne (by_id o) in
  ret (mapMongoId <$> document).

Definition createBook (newId : ObjectId) (bookData : BookData) : M BookColl Book :=
  let! insertedId := insertOne newId bookData in
  let! newBook := findOne (by_id insertedId) in
  match newBook with
  | None => throw (Failure "Failed to create and retrieve the new book.")
  | Some n => ret (mapMongoId n)
  end.

Definition updateBook (id : string) (updates : BookUpdates) : M BookColl (option Book) :=
  if negb (isValid id) then ret None else
  let! o := construct id in
  let! result := findOneAndUpdate (by_id o) (set_fields updates) in
  ret (mapMongoId <$> result).

Definition deleteBook (id : string) : M BookColl bool :=
  if negb (isValid id) then ret false else
  let! o := construct id in
  let! deletedCount := deleteOne (by_id o) in
  ret (Nat.eqb deletedCount 1).
End Books.
End Books.

(** ** The route handlers, [api/cart/route.ts] and [api/reviews/route.ts] *)

(** A field of a parsed JSON request body, as far as the handlers look
    at it.  Numbers are the integers. *)
Inductive JsValue :=
| JUndefined
| JNull
| JBool (b : bool)
| JNumber (z : Z)
| JString (s : string).

Module CartRoute.
Section CartRoute.
Context `{ObjectIdApi}.

(** The body of [POST /api/cart]; [bookId] is a string when present, as
    [addCartItem] types it. *)
Record Body := mkBody { bookId : option string; quantity : JsValue }.

Inductive Payload :=
| ErrorMessage (error : string)
| ItemMessage (message : string) (item : Cart.CartItem).

(** [NextResponse.json(payload, { status })] *)
Record Response := mkResponse { status : nat; payload : Payload }.

(** [!bookId] *)
Definition missing (b : option string) : bool :=
  match b with
  | Some s => String.eqb s ""
  | None => true
  end.

Definition POST (newId : ObjectId) (now : string) (body : Body)
    : Cart.CartColl -> Response * Cart.CartColl :=
  fun c =>
    if missing (bookId body) || match quantity body with JUndefined => true | _ => false end
    then (mkResponse 400 (ErrorMessage "Missing required fields: bookId, quantity"), c)
    else
      match quantity body with
      | JNumber q =>
          if q <=? 0
          then (mkResponse 400 (ErrorMessage "Quantity must be a positive number"), c)
          else
            match Cart.addCartItem newId now
                    (Cart.mkItemData (default "" (bookId body)) q) c with
            | (Ok newItem, c') =>
                (mkResponse 201
                   (ItemMessage "Item added/updated in cart successfully" newItem), c')
            | (Throw _, c') =>
                (mkResponse 500
                   (ErrorMessage "An error occurred while adding the item to the cart."), c')
            end
      | _ => (mkResponse 400 (ErrorMessage "Quantity must be a positive number"), c)
      end.
End CartRoute.
End CartRoute.

Module ReviewRoute.
Section ReviewRoute.
Context `{ObjectIdApi}.

(** The body of [POST /api/reviews]; [None] is an absent field. *)
Record Body := mkBody {
  bookId : option string;
  author : option string;
  rating : option Z;
  title : option string;
  comment : option string;
  timestamp : option string;
  verified : option bool
}.

Inductive Payload :=
| ErrorMessage (error : string)
| ReviewMessage (message : string) (review : Reviews.Review).

Record Response := mkResponse { status : nat; payload : Payload }.

(** The handler reads the clock once itself ([routeNow]) and the service
    once more ([now]). *)
Definition POST (newId : ObjectId) (routeNow now : string) (body : Body)
    : Reviews.ReviewColl -> Response * Reviews.ReviewColl :=
  fun c =>
    match bookId body, author body, rating body, title body, comment body with
    | None, _, _, _, _ =>
        (mkResponse 400 (ErrorMessage "Missing required field: bookId"), c)
    | _, None, _, _, _ =>
        (mkResponse 400 (ErrorMessage "Missing required field: author"), c)
    | _, _, None, _, _ =>
        (mkResponse 400 (ErrorMessage "Missing required field: rating"), c)
    | _, _, _, None, _ =>
        (mkResponse 400 (ErrorMessage "Missing required field: title"), c)
    | _, _, _, _, None =>
        (mkResponse 400 (ErrorMessage "Missing required field: comment"), c)
    | Some b, Some a, Some r, Some t, Some cm =>
        let reviewData :=
          Reviews.mkReviewData b a r t cm routeNow
            (Some (default false (verified body))) in
        match Reviews.createReview newId now reviewData c with
        | (Ok newReview, c') =>
            (mkResponse 201 (ReviewMessage "Review added successfully" newReview), c')
        | (Throw _, c') =>
            (mkResponse 500
               (ErrorMessage "An error occurred while creating the review."), c')
        end
    end.
End ReviewRoute.
End ReviewRoute.

(** ** The other cart handlers, [api/cart/route.ts] *)

Module CartHandlers.
Section CartHandlers.
Context `{ObjectIdApi}.

(** The body of [PUT /api/cart]; [cartItemId] is a string when present. *)
Record PutBody := mkPutBody { cartItemId : option string; quantity : JsValue }.

(** The query of [DELETE /api/cart]: [searchParams.get] of each name. *)
Record DeleteQuery := mkDeleteQuery {
  q_cartItemId : option string;
  q_clear : option string
}.

Inductive Payload :=
| Items (cartItems : list Cart.CartItem)
| ErrorMessage (error : string)
| Message (message : string)
| ItemMessage (message : string) (item : Cart.CartItem)
| RemovedMessage (message : string) (cartItemId : string)
  (* message: `Cart cleared successfully. ${deletedCount} items removed.` *)
| ClearedMessage (deletedCount : nat).

(** [NextResponse.json(payload, { status })]; the status is 200 when none
    is given. *)
Record Response := mkResponse { status : nat; payload : Payload }.

(** [!s] on a string that may be absent. *)
Definition falsy (s : option string) : bool :=
  match s with
  | Some x => String.eqb x ""
  | None => true
  end.

Definition GET : Cart.CartColl -> Response * Cart.CartColl :=
  fun c =>
    match Cart.getCart c with
    | (Ok cartItems, c') => (mkResponse 200 (Items cartItems), c')
    | (Throw _, c') =>
        (mkResponse 500 (ErrorMessage "An error occurred while fetching cart items."), c')
    end.

Definition PUT (body : PutBody) : Cart.CartColl -> Response * Cart.CartColl :=
  fun c =>
    if falsy (cartItemId body) || match quantity body with JUndefined => true | _ => false end
    then (mkResponse 400 (ErrorMessage "Missing required fields: cartItemId, quantity"), c)
    else
      match quantity body with
      | JNumber q =>
          if q <? 0
          then (mkResponse 400 (ErrorMessage "Quantity must be a non-negative number"), c)
          else
            match Cart.updateCartItemQuantity (default "" (cartItemId body)) q c with
            | (Ok (Some updatedItem), c') =>
                (mkResponse 200 (ItemMessage "Cart item updated successfully" updatedItem), c')
            | (Ok None, c') =>
                if q =? 0
                then (mkResponse 200
                        (Message "Cart item removed successfully (quantity set to 0)"), c')
                else (mkResponse 404
                        (ErrorMessage "Failed to update item. Item not found."), c')
            | (Throw _, c') =>
                (mkResponse 500
                   (ErrorMessage "An error occurred while updating the cart item."), c')
            end
      | _ => (mkResponse 400 (ErrorMessage "Quantity must be a non-negative number"), c)
      end.

Definition DELETE (query : DeleteQuery) : Cart.CartColl -> Response * Cart.CartColl :=
  fun c =>
    if negb (falsy (q_cartItemId query)) then
      let cartItemId := default "" (q_cartItemId query) in
      match Cart.removeCartItem cartItemId c with
      | (Ok true, c') =>
          (mkResponse 200 (RemovedMessage "Item removed from cart successfully" cartItemId), c')
      | (Ok false, c') =>
          (mkResponse 404 (ErrorMessage "Failed to remove item. Item not found."), c')
      | (Throw _, c') =>
          (mkResponse 500 (ErrorMessage "An error occurred while modifying the cart."), c')
      end
    else if bool_decide (q_clear query = Some "true") then
      match Cart.clearCart c with
      | (Ok deletedCount, c') => (mkResponse 200 (ClearedMessage deletedCount), c')
      | (Throw _, c') =>
          (mkResponse 500 (ErrorMessage "An error occurred while modifying the cart."), c')
      end
    else (mkResponse 400 (ErrorMessage "Missing cartItemId or clear=true parameter"), c).
End CartHandlers.
End CartHandlers.

(** ** The cart badge, [components/Navbar.tsx] *)

Module Navbar.
Section Navbar.
Context `{ObjectIdApi}.

(** [Number(it.quantity) || 0] on an integer quantity. *)
Definition number_or_zero (q : Z) : Z := if q =? 0 then 0 else q.

(** [data.reduce((sum, it) => sum + (Number(it.quantity) || 0), 0)] *)
Definition total (data : list Cart.CartItem) : Z :=
  fold_left (fun sum it => js_add sum (number_or_zero (Cart.item_quantity it))) data 0.

(** [res.ok] *)
Definition ok (st : nat) : bool := (200 <=? st)%nat && (st <=? 299)%nat.

(** The count [fetchCartCount] sets from the answer to [GET /api/cart]. *)
Definition fetchCartCount (res : CartHandlers.Response) : Z :=
  if negb (ok (CartHandlers.status res)) then 0
  else match CartHandlers.payload res with
       | CartHandlers.Items data => total data
       | _ => 0
       end.
End Navbar.
End Navbar.

(** ** The catalog handlers, [api/books/route.ts] and [api/books/[id]/route.ts] *)

Module BooksRoute.
Section BooksRoute.
Context `{ObjectIdApi}.

Inductive Payload :=
| BookList (books : list Books.Book)
| ErrorMessage (error : string)
| NewBookMessage (message : string) (newBook : Books.Book).

Record Response := mkResponse { status : nat; payload : Payload }.

Definition GET : Books.BookColl -> Response * Books.BookColl :=
  fun c =>
    match Books.getAllBooks c with
    | (Ok books, c') => (mkResponse 200 (BookList books), c')
    | (Throw _, c') =>
        (mkResponse 500 (ErrorMessage "An error occurred while fetching books."), c')
    end.

(** One round of the loop over [requiredFields]: answer 400 if the body
    lacks the field, go on with its value otherwise. *)
Definition required {A} (field : string) (v : option A)
    (c : Books.BookColl) (k : A -> Response * Books.BookColl)
    : Response * Books.BookColl :=
  match v with
  | None => (mkResponse 400 (ErrorMessage ("Missing required field: " ++ field)), c)
  | Some x => k x
  end.

(** The body is a JSON object that may lack any attribute:
    [Partial<Omit<Book, 'id'>>]. *)
Definition POST (newId : ObjectId) (body : Books.BookUpdates)
    : Books.BookColl -> Response * Books.BookColl :=
  fun c =>
    required "title" (Books.u_title body) c (fun title =>
    required "author" (Books.u_author body) c (fun author =>
    required "description" (Books.u_description body) c (fun description =>
    required "price" (Books.u_price body) c (fun price =>
    required "image" (Books.u_image body) c (fun image =>
    required "isbn" (Books.u_isbn body) c (fun isbn =>
    required "genre" (Books.u_genre body) c (fun genre =>
    required "tags" (Books.u_tags body) c (fun tags =>
    required "datePublished" (Books.u_datePublished body) c (fun datePublished =>
    required "pages" (Books.u_pages body) c (fun pages =>
    required "language" (Books.u_language body) c (fun language =>
    required "publisher" (Books.u_publisher body) c (fun publisher =>
    required "rating" (Books.u_rating body) c (fun rating =>
    required "reviewCount" (Books.u_reviewCount body) c (fun reviewCount =>
    required "inStock" (Books.u_inStock body) c (fun inStock =>
    required "featured" (Books.u_featured body) c (fun featured =>
      match Books.createBook newId
              (Books.mkBookData title author description price image isbn genre tags
                 datePublished pages language publisher rating reviewCount inStock
                 featured) c with
      | (Ok newBook, c') =>
          (mkResponse 200 (NewBookMessage "Book added successfully" newBook), c')
      | (Throw _, c') =>
          (mkResponse 500 (ErrorMessage "An error occurred while inserting the book."), c')
      end)))))))))))))))).
End BooksRoute.
End BooksRoute.

Module BookIdRoute.
Section BookIdRoute.
Context `{ObjectIdApi}.

Inductive Payload :=
| BookBody (book : Books.Book)
| ErrorMessage (error : string)
| Message (message : string)
| BookMessage (message : string) (book : Books.Book).

Record Response := mkResponse { status : nat; payload : Payload }.

Definition GET (id : string) : Books.BookColl -> Response * Books.BookColl :=
  fun c =>
    if String.eqb id "" then (mkResponse 400 (ErrorMessage "Missing ID"), c) else
    match Books.getBookById id c with
    | (Ok None, c') => (mkResponse 404 (Message "Book not found"), c')
    | (Ok (Some book), c') => (mkResponse 200 (BookBody book), c')
    | (Throw _, c') =>
        (mkResponse 500 (ErrorMessage "An error occurred while fetching the book."), c')
    end.

Definition PUT (id : string) (updates : Books.BookUpdates)
    : Books.BookColl -> Response * Books.BookColl :=
  fun c =>
    match Books.updateBook id updates c with
    | (Ok None, c') => (mkResponse 404 (ErrorMessage "Book not found or invalid ID"), c')
    | (Ok (Some updated), c') =>
        (mkResponse 200 (BookMessage "Book updated successfully" updated), c')
    | (Throw _, c') =>
        (mkResponse 500 (ErrorMessage "An error occurred while updating the book."), c')
    end.

Definition DELETE (id : string) : Books.BookColl -> Response * Books.BookColl :=
  fun c =>
    if String.eqb id "" then (mkResponse 400 (ErrorMessage "Missing ID"), c) else
    match Books.getBookById id c with
    | (Ok None, c') => (mkResponse 404 (ErrorMessage "Book not found"), c')
    | (Ok (Some book), c') =>
        match Books.deleteBook id c' with
        | (Ok true, c'') => (mkResponse 200 (Message "Book deleted successfully"), c'')
        | (Ok false, c'') => (mkResponse 500 (ErrorMessage "Failed to delete book"), c'')
        | (Throw _, c'') =>
            (mkResponse 500 (ErrorMessage "An error occurred while deleting the book."), c'')
        end
    | (Throw _, c') =>
        (mkResponse 500 (ErrorMessage "An error occurred while deleting the book."), c')
    end.
End BookIdRoute.
End BookIdRoute.

(** ** The other review handlers, [api/reviews/route.ts] and
    [api/reviews/[id]/route.ts] *)

Module ReviewListRoute.
Section ReviewListRoute.
Context `{ObjectIdApi}.

Inductive Payload :=
| ReviewList (reviews : list Reviews.Review)
| ErrorMessage (error : string).

Record Response := mkResponse { status : nat; payload : Payload }.

(** [bookId] is [searchParams.get("bookId")]. *)
Definition GET (bookId : option string) : Reviews.ReviewColl -> Response * Reviews.ReviewColl :=
  fun c =>
    match bookId with
    | Some b =>
        if String.eqb b "" then
          match Reviews.getAllReviews c with
          | (Ok reviews, c') => (mkResponse 200 (ReviewList reviews), c')
          | (Throw _, c') =>
              (mkResponse 500 (ErrorMessage "An error occurred while fetching reviews."), c')
          end
        else
          match Reviews.getReviewsByBookId b c with
          | (Ok None, c') => (mkResponse 400 (ErrorMessage "Invalid Book ID format"), c')
          | (Ok (Some reviews), c') => (mkResponse 200 (ReviewList reviews), c')
          | (Throw _, c') =>
              (mkResponse 500 (ErrorMessage "An error occurred while fetching reviews."), c')
          end
    | None =>
        match Reviews.getAllReviews c with
        | (Ok reviews, c') => (mkResponse 200 (ReviewList reviews), c')
        | (Throw _, c') =>
            (mkResponse 500 (ErrorMessage "An error occurred while fetching reviews."), c')
        end
    end.
End ReviewListRoute.
End ReviewListRoute.

Module ReviewIdRoute.
Section ReviewIdRoute.
Context `{ObjectIdApi}.

Inductive Payload :=
| ReviewBody (review : Reviews.Review)
| ErrorMessage (error : string)
| Message (message : string)
| ReviewMessage (message : string) (review : Reviews.Review).

Record Response := mkResponse { status : nat; payload : Payload }.

Definition GET (id : string) : Reviews.ReviewColl -> Response * Reviews.ReviewColl :=
  fun c =>
    if String.eqb id "" then (mkResponse 400 (ErrorMessage "Missing ID"), c) else
    match Reviews.getReviewById id c with
    | (Ok None, c') => (mkResponse 404 (Message "Review not found"), c')
    | (Ok (Some review), c') => (mkResponse 200 (ReviewBody review), c')
    | (Throw _, c') =>
        (mkResponse 500 (ErrorMessage "An error occurred while fetching the review."), c')
    end.

Definition PUT (id : string) (updates : Reviews.ReviewUpdates)
    : Reviews.ReviewColl -> Response * Reviews.ReviewColl :=
  fun c =>
    match Reviews.updateReview id updates c with
    | (Ok None, c') => (mkResponse 404 (ErrorMessage "Review not found or invalid ID"), c')
    | (Ok (Some updated), c') =>
        (mkResponse 200 (ReviewMessage "Review updated successfully" updated), c')
    | (Throw _, c') =>
        (mkResponse 500 (ErrorMessage "An error occurred while updating the review."), c')
    end.

Definition DELETE (id : string) : Reviews.ReviewColl -> Response * Reviews.ReviewColl :=
  fun c =>
    if String.eqb id "" then (mkResponse 400 (ErrorMessage "Missing ID"), c) else
    match Reviews.deleteReview id c with
    | (Ok true, c') => (mkResponse 200 (Message "Review deleted successfully"), c')
    | (Ok false, c') =>
        (mkResponse 404 (ErrorMessage "Review not found or failed to delete"), c')
    | (Throw _, c') =>
        (mkResponse 500 (ErrorMessage "An error occurred while deleting the review."), c')
    end.
End ReviewIdRoute.
End ReviewIdRoute.

(** ** The cached connection, [lib/mongodb.ts] *)

Module Mongodb.
Section Mongodb.
(** The driver's client and database handles, and [client.db()]. *)
Context {MongoClient Db : Type} (db_of : MongoClient -> Db).

(** The module's two variables, and the number of times
    [MongoClient.connect] has been called. *)
Record Cache := mkCache {
  cachedClient : option MongoClient;
  cachedDb : option Db;
  connects : nat
}.

(** [connectToDatabase()]; [attempt] is what [MongoClient.connect] yields
    if it is called now, [None] when it rejects.  The result is [None]
    when the call rejects. *)
Definition connectToDatabase (attempt : option MongoClient)
    : Cache -> option (MongoClient * Db) * Cache :=
  fun st =>
    match cachedClient st, cachedDb st with
    | Some client, Some db => (Some (client, db), st)
    | _, _ =>
        match attempt with
        | None => (None, mkCache (cachedClient st) (cachedDb st) (S (connects st)))
        | Some client =>
            let db := db_of client in
            (Some (client, db), mkCache (Some client) (Some db) (S (connects st)))
        end
    end.

(** Calls made one after the other, with what the driver would answer
    to each. *)
Fixpoint connectAll (attempts : list (option MongoClient)) (st : Cache)
    : list (option (MongoClient * Db)) * Cache :=
  match attempts with
  | [] => ([], st)
  | attempt :: rest =>
      let '(r, st') := connectToDatabase attempt st in
      let '(rs, st'') := connectAll rest st' in
      (r :: rs, st'')
  end.
End Mongodb.
End Mongodb.

(** ** The identifier remapping of the seed script, [scripts/seed.ts] *)

Module Seed.
Section Seed.
Context `{ObjectIdApi}.

(** [localBooks.map(book => { const { id, ...bookWithoutId } = book;
    return { oldId: id, ...bookWithoutId } })] *)
Definition booksToInsert (localBooks : list Books.Book) : list (string * Books.BookData) :=
  (fun book => (Books.id book, Books.fields book)) <$> localBooks.

(** The loop [for (let i = 0; i < booksToInsert.length; i++)
    idMapping.set(booksToInsert[i].oldId, insertResult.insertedIds[i])],
    from index [i] on.  A key set to [undefined] reads back like an
    absent key. *)
Fixpoint mapFrom (i : nat) (books : list (string * Books.BookData))
    (insertedIds : list ObjectId) (idMapping : gmap string ObjectId)
    : gmap string ObjectId :=
  match books with
  | [] => idMapping
  | b :: rest =>
      mapFrom (S i) rest insertedIds
        (match insertedIds !! i with
         | Some newId => <[b.1 := newId]> idMapping
         | None => delete b.1 idMapping
         end)
  end.

(** The mapping [seedBooks] returns, given the identifiers [insertMany]
    reported. *)
Definition idMapping (localBooks : list Books.Book) (insertedIds : list ObjectId)
    : gmap string ObjectId :=
  mapFrom 0 (booksToInsert localBooks) insertedIds ∅.

(** [localReviews.map(review => ...).filter(review => review !== null)]:
    a review whose book has no entry in the mapping is dropped, the
    others get the mapped book reference and lose their [id]. *)
Definition reviewsToInsert (localReviews : list Reviews.Review)
    (bookIdMapping : gmap string ObjectId) : list Reviews.ReviewDocument :=
  omap (fun review =>
          match bookIdMapping !! Reviews.r_bookId review with
          | None => None
          | Some newBookId =>
              Some (Reviews.mkReviewDoc newBookId (Reviews.r_author review)
                      (Reviews.r_rating review) (Reviews.r_title review)
                      (Reviews.r_comment review) (Reviews.r_timestamp review)
                      (Reviews.r_verified review))
          end) localReviews.
End Seed.
End Seed.

(** ** The cart page, [cart/page.tsx] *)

Module CartPage.
Section CartPage.
Context `{ObjectIdApi}.

(** An entry of [cartItems]. *)
Record Entry := mkEntry { book : Books.Book; quantity : Z; cartItemId : string }.

(** [new Map(booksList.map(b => [b.id, b]))]: a later book replaces an
    earlier one of the same id. *)
Definition byId (booksList : list Books.Book) : gmap string Books.Book :=
  fold_left (fun m b => <[Books.id b := b]> m) booksList ∅.

(** [cartData.map(ci => ...).filter(x => x !== null)] *)
Definition combined (cartData : list Cart.CartItem) (booksList : list Books.Book)
    : list Entry :=
  omap (fun ci =>
          match byId booksList !! Cart.item_bookId ci with
          | Some book => Some (mkEntry book (Cart.item_quantity ci) (Cart.item_id ci))
          | None => None
          end) cartData.
End CartPage.
End CartPage.

(** ** A concrete ObjectId: twenty-four hexadecimal characters

    What the driver does on strings: [new ObjectId(s)] accepts exactly the
    strings of 24 hexadecimal digits, in either case, and [toHexString]
    prints the 12 bytes in lower case.  An ObjectId is kept as its
    lower-case print. *)
Module Hex24.
Definition is_lower_hex (c : ascii) : bool :=
  let n := N_of_ascii c in
  ((48 <=? n) && (n <=? 57) || (97 <=? n) && (n <=? 102))%N.

Definition lower (c : ascii) : ascii :=
  let n := N_of_ascii c in
  if ((65 <=? n) && (n <=? 70))%N then ascii_of_N (n + 32) else c.

Fixpoint all_lower_hex (s : string) : bool :=
  match s with
  | EmptyString => true
  | String c s' => is_lower_hex c && all_lower_hex s'
  end.

Fixpoint lowercase (s : string) : string :=
  match s with
  | EmptyString => EmptyString
  | String c s' => String (lower c) (lowercase s')
  end.

Definition canonical (s : string) : bool :=
  Nat.eqb (String.length s) 24 && all_lower_hex s.

Definition oid : Type := { s : string | canonical s = true }.

Definition valid (s : string) : bool := canonical (lowercase s).

Definition parse (s : string) : option oid :=
  match bool_dec (canonical (lowercase s)) true with
  | left pf => Some (exist _ (lowercase s) pf)
  | right _ => None
  end.

Definition hex (o : oid) : string := proj1_sig o.

Lemma lower_fixes_hex c : is_lower_hex c = true -> lower c = c.
Proof.
  destruct c as [[] [] [] [] [] [] [] []]; vm_compute; congruence.
Qed.

Lemma lowercase_fixes_hex s : all_lower_hex s = true -> lowercase s = s.
Proof.
  induction s as [|c s IH]; simpl; [done|].
  intros [Hc Hs]%andb_prop. by rewrite lower_fixes_hex, IH.
Qed.

Lemma valid_parse s : valid s = true <-> is_Some (parse s).
Proof.
  unfold valid, parse. destruct (bool_dec _ true) as [pf|npf].
  - split; [eauto|done].
  - split; [done|]. by intros [? ?].
Qed.

Lemma parse_canonical t s (pf : canonical s = true) :
  t = s ->
  match bool_dec (canonical t) true with
  | left p => Some (exist _ t p)
  | right _ => None
  end = Some (exist (fun s => canonical s = true) s pf).
Proof.
  intros ->. destruct (bool_dec _ true) as [p|np]; [|done].
  by assert (p = pf) as -> by apply proof_irrel.
Qed.

Lemma parse_hex o : parse (hex o) = Some o.
Proof.
  destruct o as [s pf]. apply parse_canonical, lowercase_fixes_hex.
  unfold canonical in pf. by apply andb_prop in pf as [_ ?].
Qed.

Lemma hex_eqb_true (a b : oid) : String.eqb (hex a) (hex b) = true -> a = b.
Proof.
  destruct a as [s ps], b as [t pt]; simpl. intros ->%String.eqb_eq.
  by assert (ps = pt) as -> by apply proof_irrel.
Qed.

Lemma hex_eqb_false (a b : oid) : String.eqb (hex a) (hex b) = false -> a <> b.
Proof. intros Hne ->. by rewrite String.eqb_refl in Hne. Qed.

(** Two ObjectIds are compared through their prints. *)
Definition oid_eq_dec : EqDecision oid :=
  fun a b =>
    match String.eqb (hex a) (hex b) as t
      return String.eqb (hex a) (hex b) = t -> {a = b} + {a <> b} with
    | true => fun e => left (hex_eqb_true a b e)
    | false => fun e => right (hex_eqb_false a b e)
    end eq_refl.

#[export] Instance api : ObjectIdApi := {|
  ObjectId := oid;
  ObjectId_eq_dec := oid_eq_dec;
  isValid := valid;
  newObjectId := parse;
  toHexString := hex;
  isValid_newObjectId := valid_parse;
  newObjectId_toHexString := parse_hex
|}.

(** The ObjectId a valid string denotes (a default on the others). *)
Definition oid_of (s : string) : ObjectId :=
  match parse s with
  | Some o => o
  | None => exist _ "000000000000000000000000" eq_refl
  end.
End Hex24.

(** ** Vocabulary of the cart properties *)

Section CartVocabulary.
Context `{ObjectIdApi}.

(** A stored line is a line for the book [b] when [b] denotes the
    ObjectId the line refers to. *)
Definition is_line_for (b : string) (d : WithId Cart.CartItemDocument) : Prop :=
  newObjectId b = Some (Cart.bookId (doc d)).

#[export] Instance is_line_for_dec b d : Decision (is_line_for b d).
Proof. unfold is_line_for. apply _. Defined.

Definition lines_for (b : string) (l : list (WithId Cart.CartItemDocument))
    : list (WithId Cart.CartItemDocument) :=
  filter (is_line_for b) l.

(** The quantity the cart holds for [b], 0 when it has no line for it. *)
Definition quantity_for (b : string) (l : list (WithId Cart.CartItemDocument)) : Z :=
  match lines_for b l with
  | d :: _ => Cart.quantity (doc d)
  | [] => 0
  end.

(** The books the lines refer to, line by line. *)
Definition books (l : list (WithId Cart.CartItemDocument)) : list ObjectId :=
  (fun d => Cart.bookId (doc d)) <$> l.

(** At most one line per book. *)
Definition unique_books (l : list (WithId Cart.CartItemDocument)) : Prop :=
  NoDup (books l).

(** The mutating operations of the cart service, with their arguments. *)
Inductive CartOp :=
| AddCartItem (newId : ObjectId) (now : string) (itemData : Cart.ItemData)
| UpdateCartItemQuantity (cartItemId : string) (q : Z)
| RemoveCartItem (cartItemId : string)
| ClearCart.

(** The collection after an operation, whether it returned or threw. *)
Definition exec (op : CartOp) (c : Cart.CartColl) : Cart.CartColl :=
  match op with
  | AddCartItem newId now itemData => snd (Cart.addCartItem newId now itemData c)
  | UpdateCartItemQuantity cartItemId q => snd (Cart.updateCartItemQuantity cartItemId q c)
  | RemoveCartItem cartItemId => snd (Cart.removeCartItem cartItemId c)
  | ClearCart => snd (Cart.clearCart c)
  end.

Definition run (ops : list CartOp) (c : Cart.CartColl) : Cart.CartColl :=
  fold_left (fun c op => exec op c) ops c.

(** [typeof quantity !== 'number' || quantity <= 0] *)
Definition not_a_positive_number (v : JsValue) : Prop :=
  match v with
  | JNumber q => q <= 0
  | _ => True
  end.
End CartVocabulary.

(** ** Vocabulary of the review properties *)

Section ReviewVocabulary.
Context `{ObjectIdApi}.

(** The [$set] that [updateReview] issues when the input gives no usable
    [bookId]: every field of the input but [bookId]. *)
Definition restOfUpdates (updates : Reviews.ReviewUpdates) : Reviews.DbUpdates :=
  Reviews.mkDbUpdates None
    (Reviews.u_author updates) (Reviews.u_rating updates)
    (Reviews.u_title updates) (Reviews.u_comment updates)
    (Reviews.u_timestamp updates) (Reviews.u_verified updates).

(** The input omits [bookId] or supplies a malformed one. *)
Definition bookId_omitted_or_malformed (updates : Reviews.ReviewUpdates) : Prop :=
  match Reviews.u_bookId updates with
  | Some b => isValid b = false
  | None => True
  end.

(** The stored form of a review input. *)
Definition reviewDocument_of (o : ObjectId) (now : string)
    (reviewData : Reviews.ReviewData) : Reviews.ReviewDocument :=
  Reviews.mkReviewDoc o (Reviews.in_author reviewData) (Reviews.in_rating reviewData)
    (Reviews.in_title reviewData) (Reviews.in_comment reviewData) now
    (match Reviews.in_verified reviewData with Some true => true | _ => false end).
End ReviewVocabulary.

(** ** Vocabulary of the catalog properties *)

Section CatalogVocabulary.
Context `{ObjectIdApi}.

(** The book a request body describes, when it has every attribute. *)
Definition complete (body : Books.BookUpdates) : option Books.BookData :=
  title ← Books.u_title body;
  author ← Books.u_author body;
  description ← Books.u_description body;
  price ← Books.u_price body;
  image ← Books.u_image body;
  isbn ← Books.u_isbn body;
  genre ← Books.u_genre body;
  tags ← Books.u_tags body;
  datePublished ← Books.u_datePublished body;
  pages ← Books.u_pages body;
  language ← Books.u_language body;
  publisher ← Books.u_publisher body;
  rating ← Books.u_rating body;
  reviewCount ← Books.u_reviewCount body;
  inStock ← Books.u_inStock body;
  featured ← Books.u_featured body;
  Some (Books.mkBookData title author description price image isbn genre tags
          datePublished pages language publisher rating reviewCount inStock featured).
End CatalogVocabulary.

(** ** Sample data *)

Module Sample.
Import Hex24.

Definition bookA : string := "64b7f0c2a1d3e4f5a6b7c8d9".
Definition bookB : string := "64b7f0c2a1d3e4f5a6b7c8da".
Definition malformed : string := "not-an-object-id".
Definition idA : ObjectId := oid_of "aaaaaaaaaaaaaaaaaaaaaaaa".
Definition idB : ObjectId := oid_of "bbbbbbbbbbbbbbbbbbbbbbbb".
Definition idC : ObjectId := oid_of "cccccccccccccccccccccccc".
Definition t0 : string := "2025-01-01T00:00:00.000Z".
Definition t1 : string := "2025-01-02T00:00:00.000Z".
Definition t2 : string := "2025-01-03T00:00:00.000Z".

Definition emptyCart : Cart.CartColl := mkColl [] 0.

(** One line: two copies of book A. *)
Definition cartA : Cart.CartColl :=
  mkColl [mkDoc idA (Cart.mkCartDoc (oid_of bookA) 2 t0)] 0.

(** Two lines: book A and book B. *)
Definition cartAB : Cart.CartColl :=
  mkColl [mkDoc idA (Cart.mkCartDoc (oid_of bookA) 2 t0);
          mkDoc idB (Cart.mkCartDoc (oid_of bookB) 1 t1)] 0.

(** One line, holding [Number.MAX_SAFE_INTEGER] copies of book A. *)
Definition cartMax : Cart.CartColl :=
  mkColl [mkDoc idA (Cart.mkCartDoc (oid_of bookA) 9007199254740991 t0)] 0.

(** One review of book A, stored under [idA]. *)
Definition reviewsA : Reviews.ReviewColl :=
  mkColl [mkDoc idA (Reviews.mkReviewDoc (oid_of bookA) "Ann" 4 "Good" "Nice read" t0 false)] 0.

(** An update that carries a malformed [bookId] and a new title. *)
Definition retitle : Reviews.ReviewUpdates :=
  Reviews.mkReviewUpdates (Some malformed) None None (Some "Changed") None None None.

(** A review input that carries its own timestamp and no verified flag. *)
Definition reviewInput : Reviews.ReviewData :=
  Reviews.mkReviewData bookA "Bob" 5 "Great" "Loved it" "1999-12-31T23:59:59.000Z" None.

Definition bookInput : Books.BookData :=
  Books.mkBookData "Dune" "Frank Herbert" "A desert planet." (1999 # 100)
    "/images/dune.jpg" "9780441013593" ["Science Fiction"] ["classic"; "epic"]
    "1965-08-01" 412 "English" "Chilton Books" (9 # 2) 120 true false.

Definition emptyBooks : Books.BookColl := mkColl [] 0.
End Sample.

(** * Properties *)

(** ** Sums of safe integers *)

Lemma round_to_double_safe z :
  - 2 ^ 53 <= z <= 2 ^ 53 -> round_to_double z = z.
Proof.
  intros Hz. unfold round_to_double.
  destruct (Z.abs z <? 2 ^ 53) eqn:Hlt; [done|].
  apply Z.ltb_ge in Hlt.
  assert (z = 2 ^ 53 \/ z = - 2 ^ 53) as [-> | ->] by lia; reflexivity.
Qed.

(** Addition is exact when the sum is a safe integer. *)
Lemma js_add_safe a b :
  - MAX_SAFE_INTEGER <= a + b <= MAX_SAFE_INTEGER -> js_add a b = a + b.
Proof.
  unfold MAX_SAFE_INTEGER, js_add. intros Hab. apply round_to_double_safe. lia.
Qed.

(** ** Lists of documents *)

Section CollectionFacts.
Context `{ObjectIdApi} {T : Type}.
Implicit Types (l pre post : list (WithId T)) (d : WithId T)
               (q : WithId T -> bool) (f : T -> T).

Lemma find_split q l d :
  List.find q l = Some d ->
  exists pre post,
    l = pre ++ d :: post /\ q d = true /\ Forall (fun x => q x = false) pre.
Proof.
  induction l as [|x l IH]; simpl; [done|].
  destruct (q x) eqn:Hx.
  - intros [= ->]. exists [], l. by repeat split.
  - intros (pre & post & -> & Hd & Hpre)%IH.
    exists (x :: pre), post. repeat split; [done|]. by constructor.
Qed.

Lemma find_None_Forall q l :
  List.find q l = None <-> Forall (fun x => q x = false) l.
Proof.
  induction l as [|x l IH]; simpl.
  - split; [constructor|done].
  - destruct (q x) eqn:Hx.
    + split; [done|]. intros Hall. inversion Hall; congruence.
    + rewrite IH. split; [by constructor|]. by inversion 1.
Qed.

Lemma find_app_skip q pre l :
  Forall (fun x => q x = false) pre -> List.find q (pre ++ l) = List.find q l.
Proof. induction 1 as [|x pre Hx _ IH]; simpl; [done|]. by rewrite Hx. Qed.

Lemma update_first_split q f pre d post :
  q d = true -> Forall (fun x => q x = false) pre ->
  update_first q f (pre ++ d :: post) = pre ++ updated f d :: post.
Proof.
  intros Hd. induction 1 as [|x pre Hx _ IH]; simpl.
  - by rewrite Hd.
  - by rewrite Hx, IH.
Qed.

Lemma update_first_None q f l :
  List.find q l = None -> update_first q f l = l.
Proof.
  induction l as [|x l IH]; simpl; [done|].
  destruct (q x); [done|]. intros ?. by rewrite IH.
Qed.

Lemma remove_first_split q pre d post :
  q d = true -> Forall (fun x => q x = false) pre ->
  remove_first q (pre ++ d :: post) = pre ++ post.
Proof.
  intros Hd. induction 1 as [|x pre Hx _ IH]; simpl.
  - by rewrite Hd.
  - by rewrite Hx, IH.
Qed.

Lemma remove_first_None q l :
  List.find q l = None -> remove_first q l = l.
Proof.
  induction l as [|x l IH]; simpl; [done|].
  destruct (q x); [done|]. intros ?. by rewrite IH.
Qed.

Lemma ids_update_first q f l : ids (update_first q f l) = ids l.
Proof.
  induction l as [|x l IH]; simpl; [done|].
  destruct (q x); simpl; [done|]. by rewrite IH.
Qed.

Lemma by_id_true o d : by_id o d = true <-> _id d = o.
Proof. unfold by_id. by rewrite bool_decide_eq_true. Qed.

Lemma by_id_false o d : by_id o d = false <-> _id d <> o.
Proof. unfold by_id. by rewrite bool_decide_eq_false. Qed.

(** Under the unique index on [_id], looking a stored document up by
    its identifier finds that document. *)
Lemma find_by_id_unique pre d post :
  NoDup (ids (pre ++ d :: post)) ->
  Forall (fun x => by_id (_id d) x = false) pre.
Proof.
  unfold ids. rewrite fmap_app, fmap_cons. intros Hnd.
  apply list.NoDup_app in Hnd as (_ & Hdisj & _).
  apply list.Forall_forall. intros x Hx. apply by_id_false. intros Heq.
  apply (Hdisj (_id x)).
  - by apply list_elem_of_fmap_2.
  - rewrite Heq. by left.
Qed.

Lemma find_by_id_fresh o l :
  o ∉ ids l -> List.find (by_id o) l = None.
Proof.
  intros Hfresh. apply find_None_Forall, list.Forall_forall.
  intros x Hx. apply by_id_false. intros <-.
  by apply Hfresh, list_elem_of_fmap_2.
Qed.

Lemma find_by_id_inserted o (x : T) l :
  o ∉ ids l -> List.find (by_id o) (l ++ [mkDoc o x]) = Some (mkDoc o x).
Proof.
  intros Hfresh. rewrite find_app_skip.
  - simpl. unfold by_id; simpl. by rewrite bool_decide_eq_true_2.
  - by apply find_None_Forall, find_by_id_fresh.
Qed.
End CollectionFacts.

(** ** The cart: what each operation does to the collection *)

Section CartFacts.
Context `{ObjectIdApi}.
Import Cart.
Implicit Types (c : CartColl) (e d : WithId CartItemDocument)
               (l pre post : list (WithId CartItemDocument)) (o : ObjectId).

Lemma newObjectId_isValid s o : newObjectId s = Some o -> isValid s = true.
Proof. intros Hs. apply isValid_newObjectId. by exists o. Qed.

Lemma isValid_false_newObjectId s : isValid s = false -> newObjectId s = None.
Proof.
  intros Hs. destruct (newObjectId s) as [o|] eqn:Ho; [|done].
  apply newObjectId_isValid in Ho. congruence.
Qed.

Lemma by_bookId_true o d : by_bookId o d = true <-> bookId (doc d) = o.
Proof. unfold by_bookId. by rewrite bool_decide_eq_true. Qed.

Lemma by_bookId_false o d : by_bookId o d = false <-> bookId (doc d) <> o.
Proof. unfold by_bookId. by rewrite bool_decide_eq_false. Qed.

Lemma addCartItem_invalid newId now b q c :
  isValid b = false ->
  addCartItem newId now (mkItemData b q) c = (Throw InvalidBookID, c).
Proof. intros Hb. unfold addCartItem; simpl. by rewrite Hb. Qed.

(** The merge path: the first line of the book gets the summed quantity. *)
Lemma addCartItem_merge newId now b q c o pre e post :
  newObjectId b = Some o ->
  NoDup (ids (docs c)) ->
  docs c = pre ++ e :: post ->
  Forall (fun x => by_bookId o x = false) pre ->
  by_bookId o e = true ->
  let e' := updated (set_quantity (js_add (quantity (doc e)) q)) e in
  addCartItem newId now (mkItemData b q) c =
    (Ok (mapMongoId e'), mkColl (pre ++ e' :: post) (2 + roundtrips c)).
Proof.
  intros Ho Hnd Hc Hpre He e'.
  unfold addCartItem, bind, construct, findOne, findOneAndUpdate, touch; simpl.
  rewrite (newObjectId_isValid _ _ Ho), Ho; simpl.
  rewrite Hc in Hnd |- *.
  rewrite (find_app_skip _ _ _ Hpre); simpl. rewrite He; simpl.
  pose proof (find_by_id_unique _ _ _ Hnd) as Hid.
  rewrite (find_app_skip _ _ _ Hid); simpl.
  assert (by_id (_id e) e = true) as Hee by by apply by_id_true.
  rewrite Hee; simpl.
  by rewrite (update_first_split _ _ _ _ _ Hee Hid).
Qed.

(** The insert path: a new line at the end, stamped with the clock. *)
Lemma addCartItem_insert newId now b q c o :
  newObjectId b = Some o ->
  List.find (by_bookId o) (docs c) = None ->
  newId ∉ ids (docs c) ->
  let n := mkDoc newId (mkCartDoc o q now) in
  addCartItem newId now (mkItemData b q) c =
    (Ok (mapMongoId n), mkColl (docs c ++ [n]) (3 + roundtrips c)).
Proof.
  intros Ho Hnone Hfresh n.
  unfold addCartItem, bind, construct, findOne, insertOne, touch; simpl.
  rewrite (newObjectId_isValid _ _ Ho), Ho; simpl.
  rewrite Hnone; simpl.
  rewrite bool_decide_eq_false_2 by done; simpl.
  by rewrite (find_by_id_inserted _ _ _ Hfresh).
Qed.

(** The insert path when the generated identifier is taken. *)
Lemma addCartItem_duplicate newId now b q c o :
  newObjectId b = Some o ->
  List.find (by_bookId o) (docs c) = None ->
  newId ∈ ids (docs c) ->
  addCartItem newId now (mkItemData b q) c =
    (Throw DuplicateKey, mkColl (docs c) (2 + roundtrips c)).
Proof.
  intros Ho Hnone Hdup.
  unfold addCartItem, bind, construct, findOne, insertOne, touch; simpl.
  rewrite (newObjectId_isValid _ _ Ho), Ho; simpl.
  rewrite Hnone; simpl.
  by rewrite bool_decide_eq_true_2.
Qed.

Lemma removeCartItem_invalid s c :
  isValid s = false -> removeCartItem s c = (Ok false, c).
Proof. intros Hs. unfold removeCartItem. by rewrite Hs. Qed.

Lemma removeCartItem_valid s o c :
  newObjectId s = Some o ->
  removeCartItem s c =
    (Ok (bool_decide (is_Some (List.find (by_id o) (docs c)))),
     mkColl (remove_first (by_id o) (docs c)) (1 + roundtrips c)).
Proof.
  intros Ho. unfold removeCartItem, bind, construct, deleteOne, touch; simpl.
  rewrite (newObjectId_isValid _ _ Ho), Ho; simpl.
  by destruct (List.find _ _).
Qed.

Lemma updateCartItemQuantity_invalid s q c :
  isValid s = false -> updateCartItemQuantity s q c = (Ok None, c).
Proof. intros Hs. unfold updateCartItemQuantity. by rewrite Hs. Qed.

Lemma updateCartItemQuantity_remove s q c :
  isValid s = true -> q <= 0 ->
  updateCartItemQuantity s q c = (Ok None, snd (removeCartItem s c)).
Proof.
  intros Hs Hq. unfold updateCartItemQuantity, bind. rewrite Hs; simpl.
  rewrite (Zle_imp_le_bool _ _ Hq).
  destruct (isValid_newObjectId s) as [[o Ho] _]; [done|].
  by rewrite (removeCartItem_valid _ _ _ Ho).
Qed.

Lemma updateCartItemQuantity_set s o q c :
  newObjectId s = Some o -> 0 < q ->
  updateCartItemQuantity s q c =
    (Ok (mapMongoId <$> (updated (set_quantity q) <$> List.find (by_id o) (docs c))),
     mkColl (update_first (by_id o) (set_quantity q) (docs c)) (1 + roundtrips c)).
Proof.
  intros Ho Hq.
  unfold updateCartItemQuantity, bind, construct, findOneAndUpdate, touch.
  rewrite (newObjectId_isValid _ _ Ho), Ho; simpl.
  by rewrite (proj2 (Z.leb_gt q 0) Hq).
Qed.
End CartFacts.

(** ** The cart merge *)

Section CartClaims.
Context `{ObjectIdApi}.
Import Cart.
Implicit Types (c : CartColl) (e d : WithId CartItemDocument)
               (l pre post : list (WithId CartItemDocument)) (o : ObjectId).

Lemma is_line_for_by_bookId b o d :
  newObjectId b = Some o -> is_line_for b d <-> by_bookId o d = true.
Proof.
  intros Ho. unfold is_line_for. rewrite Ho, by_bookId_true.
  split; [by intros [= ->]|by intros ->].
Qed.

Lemma lines_for_none b o l :
  newObjectId b = Some o ->
  Forall (fun x => by_bookId o x = false) l -> lines_for b l = [].
Proof.
  intros Ho. unfold lines_for.
  induction 1 as [|x l Hx _ IH]; [done|].
  rewrite filter_cons_False; [done|].
  rewrite (is_line_for_by_bookId _ _ _ Ho). congruence.
Qed.

Lemma lines_for_split b o pre e post :
  newObjectId b = Some o ->
  Forall (fun x => by_bookId o x = false) pre ->
  by_bookId o e = true ->
  lines_for b (pre ++ e :: post) = e :: lines_for b post.
Proof.
  intros Ho Hpre He. pose proof (lines_for_none _ _ _ Ho Hpre) as Hnil.
  unfold lines_for in *. rewrite filter_app, Hnil, filter_cons_True; [done|].
  by apply (is_line_for_by_bookId _ _ _ Ho).
Qed.

(** C1, as amended.  For a valid [bookId] and positive quantities [q1],
    [q2], from a cart with at most one line for the book, two successive
    [addCartItem] calls both return, and leave exactly one line for the
    book, which the second call returns; when the starting quantity (0
    when the book was absent) and the total are safe integers, the
    quantity of that line is the starting quantity plus [q1] plus [q2].
    The collection is any the store can hold (its [_id]s are distinct),
    and the identifier generated for the first call is new to it. *)
Theorem C1_add_twice_merges b q1 q2 id1 id2 t1 t2 c :
  isValid b = true ->
  0 < q1 -> 0 < q2 ->
  (length (lines_for b (docs c)) <= 1)%nat ->
  NoDup (ids (docs c)) ->
  id1 ∉ ids (docs c) ->
  exists r1 c1 r2 c2 line,
    addCartItem id1 t1 (mkItemData b q1) c = (Ok r1, c1) /\
    addCartItem id2 t2 (mkItemData b q2) c1 = (Ok r2, c2) /\
    lines_for b (docs c2) = [line] /\
    r2 = mapMongoId line /\
    (- MAX_SAFE_INTEGER <= quantity_for b (docs c) ->
     quantity_for b (docs c) + q1 + q2 <= MAX_SAFE_INTEGER ->
     quantity (doc line) = quantity_for b (docs c) + q1 + q2).
Proof.
  intros Hb Hq1 Hq2 Hone Hnd Hfresh.
  destruct (isValid_newObjectId b) as [[o Ho] _]; [done|].
  destruct (List.find (by_bookId o) (docs c)) as [e|] eqn:Hfind.
  - apply find_split in Hfind as (pre & post & Hc & He & Hpre).
    unfold quantity_for in *.
    rewrite Hc, (lines_for_split _ _ _ _ _ Ho Hpre He) in Hone |- *.
    assert (lines_for b post = []) as Hpost.
    { destruct (lines_for b post); [done|simpl in Hone; lia]. }
    set (e1 := updated (set_quantity (js_add (quantity (doc e)) q1)) e).
    set (c1 := mkColl (pre ++ e1 :: post) (2 + roundtrips c)).
    set (e2 := updated (set_quantity (js_add (quantity (doc e1)) q2)) e1).
    exists (mapMongoId e1), c1, (mapMongoId e2),
           (mkColl (pre ++ e2 :: post) (2 + roundtrips c1)), e2.
    split; [by apply (addCartItem_merge _ _ _ _ _ o)|].
    split.
    { apply (addCartItem_merge _ _ _ _ _ o); try done.
      simpl. rewrite Hc in Hnd. unfold ids in *.
      by rewrite fmap_app, fmap_cons in *. }
    split; [|split; [done|]].
    + simpl. by rewrite (lines_for_split _ _ _ _ _ Ho Hpre), Hpost.
    + intros Hlo Hhi. simpl. rewrite (js_add_safe (quantity (doc e)) q1) by lia.
      rewrite js_add_safe by lia. done.
  - pose proof (proj1 (find_None_Forall _ _) Hfind) as Hall.
    unfold quantity_for in *. rewrite (lines_for_none _ _ _ Ho Hall).
    set (n := mkDoc id1 (mkCartDoc o q1 t1)).
    set (c1 := mkColl (docs c ++ [n]) (3 + roundtrips c)).
    set (n2 := updated (set_quantity (js_add (quantity (doc n)) q2)) n).
    exists (mapMongoId n), c1, (mapMongoId n2),
           (mkColl (docs c ++ [n2]) (2 + roundtrips c1)), n2.
    assert (by_bookId o n = true) as Hn by by apply by_bookId_true.
    split; [by apply (addCartItem_insert _ _ _ _ _ o)|].
    split.
    { apply (addCartItem_merge _ _ _ _ _ o); try done.
      simpl. unfold ids. rewrite fmap_app. apply list.NoDup_app.
      split; [done|]. split; [|apply NoDup_singleton].
      intros x Hx. simpl. rewrite list_elem_of_singleton. by intros ->. }
    split; [|split; [done|]].
    + simpl. by rewrite (lines_for_split _ _ _ _ _ Ho Hall).
    + intros Hlo Hhi. simpl. rewrite js_add_safe by lia. lia.
Qed.

Lemma lines_for_nil_find b o l :
  newObjectId b = Some o ->
  lines_for b l = [] <-> List.find (by_bookId o) l = None.
Proof.
  intros Ho. split.
  - intros Hnil. destruct (List.find _ l) as [e|] eqn:Hfind; [|done].
    apply find_split in Hfind as (pre & post & -> & He & Hpre).
    by rewrite (lines_for_split _ _ _ _ _ Ho Hpre He) in Hnil.
  - intros Hnone. by apply (lines_for_none _ o), find_None_Forall.
Qed.

(** C10. When a line for the book already exists, [addCartItem] returns
    and replaces that line by one with the same [_id], [bookId] and
    [addedAt] and a new quantity, at the same place; the lines before
    and after it are as they were and no line is added.  (The new
    quantity is the sum when that is a safe integer.)  When there is no
    such line (and the generated identifier is new), the cart gains one
    line at the end, which carries the reading of the clock. *)
Theorem C10_merge_changes_only_quantity b q newId now c :
  isValid b = true ->
  NoDup (ids (docs c)) ->
  (lines_for b (docs c) <> [] ->
     exists pre e post newQuantity c',
       docs c = pre ++ e :: post /\ is_line_for b e /\ lines_for b pre = [] /\
       let e' := mkDoc (_id e)
                   (mkCartDoc (bookId (doc e)) newQuantity (addedAt (doc e))) in
       addCartItem newId now (mkItemData b q) c = (Ok (mapMongoId e'), c') /\
       docs c' = pre ++ e' :: post /\
       (- MAX_SAFE_INTEGER <= quantity (doc e) + q <= MAX_SAFE_INTEGER ->
        newQuantity = quantity (doc e) + q)) /\
  (lines_for b (docs c) = [] -> newId ∉ ids (docs c) ->
     exists o r c',
       newObjectId b = Some o /\
       addCartItem newId now (mkItemData b q) c = (Ok r, c') /\
       docs c' = docs c ++ [mkDoc newId (mkCartDoc o q now)]).
Proof.
  intros Hb Hnd.
  destruct (isValid_newObjectId b) as [[o Ho] _]; [done|].
  split.
  - intros Hsome.
    destruct (List.find (by_bookId o) (docs c)) as [e|] eqn:Hfind.
    + apply find_split in Hfind as (pre & post & Hc & He & Hpre).
      exists pre, e, post, (js_add (quantity (doc e)) q). eexists. split; [done|].
      split; [by apply (is_line_for_by_bookId _ o)|].
      split; [by apply (lines_for_none _ o)|].
      split; [by apply (addCartItem_merge _ _ _ _ _ o pre e post)|].
      split; [done|]. apply js_add_safe.
    + by apply (lines_for_nil_find _ _ _ Ho) in Hfind.
  - intros Hnil Hfresh. apply (lines_for_nil_find _ _ _ Ho) in Hnil.
    exists o. do 2 eexists. split; [done|].
    split; [by apply (addCartItem_insert _ _ _ _ _ o)|done].
Qed.

(** ** The uniqueness invariant *)

Lemma books_update_first (p : WithId CartItemDocument -> bool) z l :
  books (update_first p (set_quantity z) l) = books l.
Proof.
  unfold books. induction l as [|x l IH]; simpl; [done|].
  destruct (p x); simpl; [done|]. by f_equal.
Qed.

Lemma books_remove_first (p : WithId CartItemDocument -> bool) l :
  books (remove_first p l) `sublist_of` books l.
Proof.
  unfold books. induction l as [|x l IH]; simpl; [done|].
  destruct (p x); simpl.
  - by apply sublist_cons.
  - by apply sublist_skip.
Qed.

Lemma unique_books_update_first (p : WithId CartItemDocument -> bool) z l :
  unique_books l -> unique_books (update_first p (set_quantity z) l).
Proof. unfold unique_books. by rewrite books_update_first. Qed.

Lemma unique_books_remove_first (p : WithId CartItemDocument -> bool) l :
  unique_books l -> unique_books (remove_first p l).
Proof. intros Hl. eapply sublist_NoDup; [exact Hl|apply books_remove_first]. Qed.

Lemma unique_books_insert o z t newId l :
  List.find (by_bookId o) l = None ->
  unique_books l -> unique_books (l ++ [mkDoc newId (mkCartDoc o z t)]).
Proof.
  intros Hnone Hl. unfold unique_books, books in *.
  rewrite fmap_app. apply list.NoDup_app.
  split; [done|]. split; [|apply NoDup_singleton].
  intros x (d & -> & Hd)%list_elem_of_fmap. simpl.
  rewrite list_elem_of_singleton. intros Heq.
  apply find_None_Forall in Hnone.
  rewrite list.Forall_forall in Hnone. specialize (Hnone d Hd).
  by apply by_bookId_false in Hnone.
Qed.

Lemma unique_books_addCartItem newId now itemData c :
  unique_books (docs c) ->
  unique_books (docs (snd (addCartItem newId now itemData c))).
Proof.
  intros Hc. destruct itemData as [b q].
  unfold addCartItem, bind, construct, findOne, findOneAndUpdate, insertOne, touch; simpl.
  destruct (isValid b); simpl; [|done].
  destruct (newObjectId b) as [o|]; simpl; [|done].
  destruct (List.find (by_bookId o) (docs c)) as [e|] eqn:Hfind; simpl.
  - destruct (List.find (by_id (_id e)) (docs c)); simpl;
      by apply unique_books_update_first.
  - case_bool_decide; simpl; [done|].
    pose proof (unique_books_insert o q now newId _ Hfind Hc) as Hins.
    by destruct (List.find _ (_ ++ _)).
Qed.

Lemma unique_books_removeCartItem s c :
  unique_books (docs c) -> unique_books (docs (snd (removeCartItem s c))).
Proof.
  intros Hc. unfold removeCartItem, bind, construct, deleteOne, touch.
  destruct (isValid s); simpl; [|done].
  destruct (newObjectId s); simpl; [|done].
  by apply unique_books_remove_first.
Qed.

Lemma unique_books_updateCartItemQuantity s q c :
  unique_books (docs c) ->
  unique_books (docs (snd (updateCartItemQuantity s q c))).
Proof.
  intros Hc. pose proof (unique_books_removeCartItem s c Hc) as Hrm.
  unfold updateCartItemQuantity, bind, construct, findOneAndUpdate, touch.
  destruct (isValid s) eqn:Hs; simpl; [|done].
  destruct (q <=? 0).
  - by destruct (removeCartItem s c) as [[b|e] c'].
  - destruct (newObjectId s); simpl; [|done].
    by apply unique_books_update_first.
Qed.

Lemma unique_books_exec op c :
  unique_books (docs c) -> unique_books (docs (exec op c)).
Proof.
  destruct op; simpl.
  - apply unique_books_addCartItem.
  - apply unique_books_updateCartItemQuantity.
  - apply unique_books_removeCartItem.
  - intros _. apply NoDup_nil_2.
Qed.

(** C2. "At most one line per book" holds of the empty cart, is
    preserved by every cart operation whatever its arguments and
    outcome, and hence holds after any sequence of operations run one
    after the other from an empty cart. *)
Theorem C2_unique_books_invariant :
  unique_books [] /\
  (forall op c, unique_books (docs c) -> unique_books (docs (exec op c))) /\
  (forall ops c, docs c = [] -> unique_books (docs (run ops c))).
Proof.
  split; [apply NoDup_nil_2|]. split; [apply unique_books_exec|].
  intros ops c Hc.
  assert (unique_books (docs c)) as Hinv by (rewrite Hc; apply NoDup_nil_2).
  clear Hc. revert c Hinv. unfold run.
  induction ops as [|op ops IH]; intros c Hinv; simpl; [done|].
  by apply IH, unique_books_exec.
Qed.
(** ** Setting a quantity and removing a line *)

Lemma not_in_ids_find o l : List.find (by_id o) l = None -> o ∉ ids l.
Proof.
  intros Hnone (d & -> & Hd)%list_elem_of_fmap.
  apply find_None_Forall in Hnone. rewrite list.Forall_forall in Hnone.
  specialize (Hnone d Hd). by apply by_id_false in Hnone.
Qed.

(** Under the unique index, the identifier removed is gone. *)
Lemma remove_first_by_id_absent o l :
  NoDup (ids l) -> o ∉ ids (remove_first (by_id o) l).
Proof.
  intros Hnd. destruct (List.find (by_id o) l) as [e|] eqn:Hfind.
  - apply find_split in Hfind as (pre & post & -> & He & Hpre).
    rewrite (remove_first_split _ _ _ _ He Hpre).
    apply by_id_true in He. subst o.
    unfold ids in *. rewrite fmap_app, fmap_cons in Hnd. rewrite fmap_app.
    apply list.NoDup_app in Hnd as (_ & Hdisj & Hpost).
    apply list.NoDup_cons in Hpost as [Hpost _].
    rewrite elem_of_app. intros [Hin|Hin]; [|done].
    apply (Hdisj _ Hin). by left.
  - rewrite (remove_first_None _ _ Hfind). by apply not_in_ids_find.
Qed.

Lemma find_by_id_mem o e l :
  NoDup (ids l) -> e ∈ l -> _id e = o ->
  exists pre post,
    l = pre ++ e :: post /\ Forall (fun x => by_id o x = false) pre.
Proof.
  intros Hnd (pre & post & ->)%list_elem_of_split <-.
  exists pre, post. split; [done|]. by apply (find_by_id_unique _ _ post).
Qed.

(** C6. For a well-formed [cartItemId]: with [q <= 0],
    [updateCartItemQuantity] leaves the collection exactly as
    [removeCartItem] does and returns no line, and a following [getCart]
    lists no line under that identifier; with [q > 0] and a line under
    that identifier, it returns that line with its quantity replaced by
    [q] and stores it in place of the old one; with [q > 0] and no such
    line it returns no line and the lines are as before. *)
Theorem C6_update_quantity cartItemId q c :
  isValid cartItemId = true ->
  NoDup (ids (docs c)) ->
  exists o,
    newObjectId cartItemId = Some o /\
    (q <= 0 ->
       updateCartItemQuantity cartItemId q c =
         (Ok None, snd (removeCartItem cartItemId c)) /\
       exists items c',
         getCart (snd (updateCartItemQuantity cartItemId q c)) = (Ok items, c') /\
         forall it, it ∈ items -> newObjectId (item_id it) <> Some o) /\
    (0 < q -> forall e, e ∈ docs c -> _id e = o ->
       exists pre post c',
         docs c = pre ++ e :: post /\
         let e' := mkDoc (_id e) (mkCartDoc (bookId (doc e)) q (addedAt (doc e))) in
         updateCartItemQuantity cartItemId q c = (Ok (Some (mapMongoId e')), c') /\
         docs c' = pre ++ e' :: post) /\
    (0 < q -> o ∉ ids (docs c) ->
       exists c',
         updateCartItemQuantity cartItemId q c = (Ok None, c') /\
         docs c' = docs c).
Proof.
  intros Hv Hnd.
  destruct (isValid_newObjectId cartItemId) as [[o Ho] _]; [done|].
  exists o. split; [done|]. split; [|split].
  - intros Hq. rewrite (updateCartItemQuantity_remove _ _ _ Hv Hq).
    split; [done|]. simpl. rewrite (removeCartItem_valid _ _ _ Ho); simpl.
    do 2 eexists. split; [reflexivity|].
    intros it (d & -> & Hd)%list_elem_of_fmap. simpl.
    rewrite newObjectId_toHexString. intros [= Heq].
    apply list_elem_of_filter in Hd as [_ Hd]; simpl in Hd.
    apply (remove_first_by_id_absent o (docs c) Hnd).
    rewrite <- Heq at 1. by apply list_elem_of_fmap_2.
  - intros Hq e He Hid.
    destruct (find_by_id_mem _ _ _ Hnd He Hid) as (pre & post & Hc & Hpre).
    assert (by_id o e = true) as Hoe by by apply by_id_true.
    exists pre, post. eexists. split; [done|].
    rewrite (updateCartItemQuantity_set _ _ _ _ Ho Hq), Hc.
    rewrite (find_app_skip _ _ _ Hpre); simpl. rewrite Hoe; simpl.
    by rewrite (update_first_split _ _ _ _ _ Hoe Hpre).
  - intros Hq Habsent. eexists.
    rewrite (updateCartItemQuantity_set _ _ _ _ Ho Hq).
    rewrite (find_by_id_fresh _ _ Habsent); simpl.
    by rewrite (update_first_None _ _ _ (find_by_id_fresh _ _ Habsent)).
Qed.

(** C7. [removeCartItem] returns on every string.  It returns [true]
    only after deleting the first line stored under the identifier, and
    [false] with the lines as they were; it returns [false] for a
    malformed identifier (the collection is not even consulted) and for
    a well-formed one under which no line is stored: the same value in
    both cases. *)
Theorem C7_remove_reports cartItemId c :
  exists r c',
    removeCartItem cartItemId c = (Ok r, c') /\
    (r = true ->
       exists pre e post,
         newObjectId cartItemId = Some (_id e) /\
         docs c = pre ++ e :: post /\ docs c' = pre ++ post) /\
    (r = false -> docs c' = docs c) /\
    (isValid cartItemId = false -> r = false /\ c' = c) /\
    (forall o, newObjectId cartItemId = Some o -> o ∉ ids (docs c) -> r = false).
Proof.
  destruct (isValid cartItemId) eqn:Hv.
  - destruct (isValid_newObjectId cartItemId) as [[o Ho] _]; [done|].
    rewrite (removeCartItem_valid _ _ _ Ho). do 2 eexists.
    split; [reflexivity|]. simpl.
    destruct (List.find (by_id o) (docs c)) as [e|] eqn:Hfind.
    + apply find_split in Hfind as (pre & post & Hc & He & Hpre).
      rewrite bool_decide_eq_true_2 by eauto.
      split; [|split; [done|split; [done|]]].
      * intros _. exists pre, e, post. apply by_id_true in He as Heq.
        rewrite Heq. split; [done|]. split; [done|].
        by rewrite Hc, (remove_first_split _ _ _ _ He Hpre).
      * intros o' Ho' Habs. rewrite Ho in Ho'. injection Ho' as <-.
        exfalso. apply Habs. rewrite Hc. unfold ids.
        rewrite fmap_app, fmap_cons, elem_of_app.
        right. apply by_id_true in He. rewrite He. by left.
    + rewrite bool_decide_eq_false_2 by (by intros [? ?]).
      split; [done|]. split; [|done].
      intros _. by rewrite (remove_first_None _ _ Hfind).
  - rewrite (removeCartItem_invalid _ _ Hv). do 2 eexists.
    split; [reflexivity|]. repeat split; try done.
Qed.

(** ** Rejected additions *)

Lemma POST_unchanged_on_malformed newId now b v c :
  isValid b = false ->
  snd (CartRoute.POST newId now (CartRoute.mkBody (Some b) v) c) = c /\
  exists msg,
    CartRoute.payload (fst (CartRoute.POST newId now (CartRoute.mkBody (Some b) v) c))
    = CartRoute.ErrorMessage msg.
Proof.
  intros Hb. unfold CartRoute.POST; simpl.
  destruct (String.eqb b ""); simpl; [eauto|].
  destruct v as [| |x|z|x]; simpl; eauto.
  destruct (z <=? 0); simpl; [eauto|].
  rewrite (addCartItem_invalid _ _ _ _ _ Hb). eauto.
Qed.

(** C3, as amended.  [addCartItem] given a malformed [bookId] throws
    'Invalid Book ID' with the collection untouched, and the
    [POST /api/cart] handler then answers with an error and the cart as
    it was.  [addCartItem] itself does not look at the quantity: it is
    the handler that answers 400, without calling the service, when the
    quantity is missing, is not a number or is not above 0. *)
Theorem C3_rejected_additions newId now c :
  (forall b q, isValid b = false ->
     addCartItem newId now (mkItemData b q) c = (Throw InvalidBookID, c)) /\
  (forall b v, isValid b = false ->
     snd (CartRoute.POST newId now (CartRoute.mkBody (Some b) v) c) = c /\
     exists msg,
       CartRoute.payload (fst (CartRoute.POST newId now (CartRoute.mkBody (Some b) v) c))
       = CartRoute.ErrorMessage msg) /\
  (forall b v, not_a_positive_number v ->
     exists msg,
       CartRoute.POST newId now (CartRoute.mkBody b v) c
       = (CartRoute.mkResponse 400 (CartRoute.ErrorMessage msg), c)).
Proof.
  split; [intros; by apply addCartItem_invalid|].
  split; [intros; by apply POST_unchanged_on_malformed|].
  intros b v Hv. unfold CartRoute.POST; simpl.
  destruct (CartRoute.missing b); simpl; [eauto|].
  destruct v as [| |x|z|x]; simpl in *; eauto.
  rewrite (Zle_imp_le_bool _ _ Hv). eauto.
Qed.
End CartClaims.

(** ** Reviews and books *)

Section ServiceClaims.
Context `{ObjectIdApi}.

Lemma usable_bookId_None updates :
  bookId_omitted_or_malformed updates ->
  Reviews.usable_bookId (Reviews.u_bookId updates) = None.
Proof.
  unfold bookId_omitted_or_malformed, Reviews.usable_bookId.
  destruct (Reviews.u_bookId updates) as [b|]; [|done].
  intros ->. by rewrite andb_false_r.
Qed.

(** C4, as amended.  For a well-formed review id, an input whose
    [bookId] is omitted or malformed is not rejected: [updateReview]
    returns, the first review stored under the id keeps its [bookId]
    and takes every other supplied field, and the review after the
    update is returned (nothing, when no review is stored under the
    id). *)
Theorem C4_update_ignores_unusable_bookId id updates c :
  isValid id = true ->
  bookId_omitted_or_malformed updates ->
  exists o,
    newObjectId id = Some o /\
    Reviews.updateReview id updates c =
      (Ok (Reviews.mapMongoId <$>
             (updated (Reviews.set_fields (restOfUpdates updates)) <$>
                List.find (by_id o) (docs c))),
       mkColl (update_first (by_id o) (Reviews.set_fields (restOfUpdates updates)) (docs c))
              (1 + roundtrips c)) /\
    forall d,
      let d' := Reviews.set_fields (restOfUpdates updates) d in
      Reviews.bookId d' = Reviews.bookId d /\
      Reviews.author d' = default (Reviews.author d) (Reviews.u_author updates) /\
      Reviews.rating d' = default (Reviews.rating d) (Reviews.u_rating updates) /\
      Reviews.title d' = default (Reviews.title d) (Reviews.u_title updates) /\
      Reviews.comment d' = default (Reviews.comment d) (Reviews.u_comment updates) /\
      Reviews.timestamp d' = default (Reviews.timestamp d) (Reviews.u_timestamp updates) /\
      Reviews.verified d' = default (Reviews.verified d) (Reviews.u_verified updates).
Proof.
  intros Hid Hb.
  destruct (isValid_newObjectId id) as [[o Ho] _]; [done|].
  exists o. split; [done|]. split; [|by intros d].
  unfold Reviews.updateReview, bind, construct, findOneAndUpdate, touch.
  rewrite Hid; simpl. rewrite (usable_bookId_None _ Hb); simpl.
  by rewrite Ho.
Qed.

Lemma createReview_stores newId now reviewData c o :
  newObjectId (Reviews.in_bookId reviewData) = Some o ->
  newId ∉ ids (docs c) ->
  let stored := mkDoc newId (reviewDocument_of o now reviewData) in
  Reviews.createReview newId now reviewData c =
    (Ok (Reviews.mapMongoId stored), mkColl (docs c ++ [stored]) (2 + roundtrips c)).
Proof.
  intros Ho Hfresh stored. subst stored. unfold reviewDocument_of.
  unfold Reviews.createReview, bind, construct, insertOne, findOne, touch.
  rewrite Ho; simpl. rewrite bool_decide_eq_false_2 by done; simpl.
  rewrite (find_by_id_inserted _ _ _ Hfresh); simpl.
  by destruct (Reviews.in_verified reviewData) as [[]|].
Qed.

(** C8. Creating a review for a well-formed book reference, under a
    new identifier, returns and stores one more review whose timestamp
    is the service's reading of the clock, whatever timestamp the input
    carries, and whose verified flag is [true] only if the input
    supplies [true] ([false] when it is omitted).  The same holds
    through the [POST /api/reviews] handler, whatever timestamp the
    request body carries. *)
Theorem C8_create_stamps_and_defaults newId now c :
  newId ∉ ids (docs c) ->
  (forall reviewData,
     isValid (Reviews.in_bookId reviewData) = true ->
     exists o r c',
       newObjectId (Reviews.in_bookId reviewData) = Some o /\
       Reviews.createReview newId now reviewData c = (Ok r, c') /\
       docs c' = docs c ++ [mkDoc newId (reviewDocument_of o now reviewData)] /\
       r = Reviews.mapMongoId (mkDoc newId (reviewDocument_of o now reviewData)) /\
       Reviews.r_timestamp r = now /\
       Reviews.r_verified r =
         match Reviews.in_verified reviewData with Some true => true | _ => false end) /\
  (forall routeNow b a rt t cm ts v,
     isValid b = true ->
     exists d r c',
       ReviewRoute.POST newId routeNow now
         (ReviewRoute.mkBody (Some b) (Some a) (Some rt) (Some t) (Some cm) ts v) c
       = (ReviewRoute.mkResponse 201
            (ReviewRoute.ReviewMessage "Review added successfully" r), c') /\
       docs c' = docs c ++ [mkDoc newId d] /\
       Reviews.timestamp d = now /\
       Reviews.verified d = match v with Some true => true | _ => false end /\
       Reviews.r_timestamp r = now /\
       Reviews.r_verified r = match v with Some true => true | _ => false end).
Proof.
  intros Hfresh. split.
  - intros reviewData Hb.
    destruct (isValid_newObjectId (Reviews.in_bookId reviewData)) as [[o Ho] _]; [done|].
    exists o. do 2 eexists. split; [done|].
    split; [by apply createReview_stores|]. by repeat split.
  - intros routeNow b a rt t cm ts v Hb.
    destruct (isValid_newObjectId b) as [[o Ho] _]; [done|].
    unfold ReviewRoute.POST; simpl.
    rewrite (createReview_stores newId now _ c o) by done.
    do 3 eexists. split; [reflexivity|]. simpl.
    split; [reflexivity|]. by destruct v as [[]|].
Qed.

(** C9. Creating a book under a new identifier returns the input
    together with the identifier's print, and looking that identifier
    up afterwards returns the very same record. *)
Theorem C9_create_then_get newId bookData c :
  newId ∉ ids (docs c) ->
  exists book c1 c2,
    Books.createBook newId bookData c = (Ok book, c1) /\
    book = Books.mkBook (toHexString newId) bookData /\
    Books.getBookById (Books.id book) c1 = (Ok (Some book), c2).
Proof.
  intros Hfresh.
  exists (Books.mkBook (toHexString newId) bookData).
  unfold Books.createBook, Books.getBookById, bind, construct, insertOne, findOne, touch.
  simpl. rewrite bool_decide_eq_false_2 by done; simpl.
  rewrite (find_by_id_inserted _ _ _ Hfresh); simpl.
  do 2 eexists. split; [reflexivity|]. split; [done|].
  rewrite (newObjectId_isValid _ newId) by apply newObjectId_toHexString.
  simpl. rewrite newObjectId_toHexString; simpl.
  by rewrite (find_by_id_inserted _ _ _ Hfresh).
Qed.

(** C5. On a malformed identifier every accessor that takes one returns
    its "not found" value and leaves its collection as it was, the count
    of driver calls included: no call reaches the driver, and nothing is
    thrown. *)
Theorem C5_malformed_short_circuits s :
  isValid s = false ->
  (forall c, Books.getBookById s c = (Ok None, c)) /\
  (forall u c, Books.updateBook s u c = (Ok None, c)) /\
  (forall c, Books.deleteBook s c = (Ok false, c)) /\
  (forall c, Reviews.getReviewById s c = (Ok None, c)) /\
  (forall c, Reviews.getReviewsByBookId s c = (Ok None, c)) /\
  (forall u c, Reviews.updateReview s u c = (Ok None, c)) /\
  (forall c, Reviews.deleteReview s c = (Ok false, c)) /\
  (forall q c, Cart.updateCartItemQuantity s q c = (Ok None, c)) /\
  (forall c, Cart.removeCartItem s c = (Ok false, c)).
Proof.
  intros Hs.
  unfold Books.getBookById, Books.updateBook, Books.deleteBook,
    Reviews.getReviewById, Reviews.getReviewsByBookId, Reviews.updateReview,
    Reviews.deleteReview, Cart.updateCartItemQuantity, Cart.removeCartItem.
  rewrite Hs; simpl. by repeat split.
Qed.
End ServiceClaims.

(** * Further properties of the services and handlers *)

(** ** The cart as a store *)

Section CartStore.
Context `{ObjectIdApi}.
Import Cart.
Implicit Types (c : CartColl) (e d : WithId CartItemDocument)
               (l pre post : list (WithId CartItemDocument)) (o : ObjectId).

Lemma toHexString_inj o1 o2 : toHexString o1 = toHexString o2 -> o1 = o2.
Proof.
  intros Heq. pose proof (newObjectId_toHexString o1) as H1.
  rewrite Heq, newObjectId_toHexString in H1. congruence.
Qed.

Lemma filter_true {A} (l : list A) : filter (fun _ : A => true = true) l = l.
Proof.
  induction l as [|x l IH]; [done|]. rewrite filter_cons_True by done. by rewrite IH.
Qed.

Lemma getCart_run c :
  getCart c = (Ok (mapMongoId <$> docs c), mkColl (docs c) (1 + roundtrips c)).
Proof. unfold getCart, bind, find, touch; simpl. by rewrite filter_true. Qed.

Lemma ids_remove_first (p : WithId CartItemDocument -> bool) l :
  ids (remove_first p l) `sublist_of` ids l.
Proof.
  unfold ids. induction l as [|x l IH]; simpl; [done|].
  destruct (p x); simpl.
  - by apply sublist_cons.
  - by apply sublist_skip.
Qed.

Lemma NoDup_ids_snoc newId (x : CartItemDocument) l :
  NoDup (ids l) -> newId ∉ ids l -> NoDup (ids (l ++ [mkDoc newId x])).
Proof.
  intros Hnd Hfresh. unfold ids. rewrite fmap_app. apply list.NoDup_app.
  split; [done|]. split; [|apply NoDup_singleton].
  intros y Hy. simpl. rewrite list_elem_of_singleton. by intros ->.
Qed.

Lemma elem_of_update_first (p : WithId CartItemDocument -> bool) z l d' :
  d' ∈ update_first p (set_quantity z) l ->
  exists d, d ∈ l /\ _id d = _id d' /\
            bookId (doc d) = bookId (doc d') /\ addedAt (doc d) = addedAt (doc d').
Proof.
  induction l as [|x l IH]; simpl; [by intros ?%elem_of_nil|].
  destruct (p x).
  - intros [->|Hin]%elem_of_cons.
    + exists x. split; [by left|done].
    + exists d'. split; [by right|done].
  - intros [->|Hin]%elem_of_cons.
    + exists x. split; [by left|done].
    + destruct (IH Hin) as (d & Hd & Hrest). exists d. split; [by right|done].
Qed.

Lemma elem_of_remove_first (p : WithId CartItemDocument -> bool) l d' :
  d' ∈ remove_first p l -> d' ∈ l.
Proof.
  induction l as [|x l IH]; simpl; [done|].
  destruct (p x).
  - intros Hin. by right.
  - intros [->|Hin]%elem_of_cons; [by left|right; by apply IH].
Qed.

(** What a returning [addCartItem] has done: merged into the first line
    of the book, or appended a line under the generated identifier. *)
Lemma addCartItem_Ok_inv newId now b q c r c1 :
  NoDup (ids (docs c)) ->
  addCartItem newId now (mkItemData b q) c = (Ok r, c1) ->
  exists o, newObjectId b = Some o /\
    ((exists pre e post,
        docs c = pre ++ e :: post /\
        Forall (fun x => by_bookId o x = false) pre /\ by_bookId o e = true /\
        r = mapMongoId (updated (set_quantity (js_add (quantity (doc e)) q)) e) /\
        docs c1 = pre ++ updated (set_quantity (js_add (quantity (doc e)) q)) e :: post) \/
     (List.find (by_bookId o) (docs c) = None /\ (newId ∉ ids (docs c)) /\
      r = mapMongoId (mkDoc newId (mkCartDoc o q now)) /\
      docs c1 = docs c ++ [mkDoc newId (mkCartDoc o q now)])).
Proof.
  intros Hnd Hrun. destruct (isValid b) eqn:Hb.
  - destruct (isValid_newObjectId b) as [[o Ho] _]; [done|].
    exists o. split; [done|].
    destruct (List.find (by_bookId o) (docs c)) as [e|] eqn:Hfind.
    + left. apply find_split in Hfind as (pre & post & Hc & He & Hpre).
      rewrite (addCartItem_merge _ _ _ _ _ o pre e post Ho Hnd Hc Hpre He) in Hrun.
      injection Hrun as <- <-. by exists pre, e, post.
    + right. destruct (decide (newId ∈ ids (docs c))) as [Hdup|Hfresh].
      * by rewrite (addCartItem_duplicate _ _ _ _ _ o Ho Hfind Hdup) in Hrun.
      * rewrite (addCartItem_insert _ _ _ _ _ o Ho Hfind Hfresh) in Hrun.
        by injection Hrun as <- <-.
  - by rewrite (addCartItem_invalid _ _ _ _ _ Hb) in Hrun.
Qed.

Lemma NoDup_ids_addCartItem newId now itemData c :
  NoDup (ids (docs c)) ->
  NoDup (ids (docs (snd (addCartItem newId now itemData c)))).
Proof.
  intros Hc. destruct itemData as [b q].
  unfold addCartItem, bind, construct, findOne, findOneAndUpdate, insertOne, touch; simpl.
  destruct (isValid b); simpl; [|done].
  destruct (newObjectId b) as [o|]; simpl; [|done].
  destruct (List.find (by_bookId o) (docs c)) as [e|] eqn:Hfind; simpl.
  - destruct (List.find (by_id (_id e)) (docs c)); simpl;
      by rewrite ids_update_first.
  - case_bool_decide as Hin; simpl; [done|].
    pose proof (NoDup_ids_snoc newId (mkCartDoc o q now) _ Hc Hin) as Hins.
    by destruct (List.find _ (_ ++ _)).
Qed.

Lemma NoDup_ids_removeCartItem s c :
  NoDup (ids (docs c)) -> NoDup (ids (docs (snd (removeCartItem s c)))).
Proof.
  intros Hc. unfold removeCartItem, bind, construct, deleteOne, touch.
  destruct (isValid s); simpl; [|done].
  destruct (newObjectId s); simpl; [|done].
  eapply sublist_NoDup; [exact Hc|apply ids_remove_first].
Qed.

Lemma NoDup_ids_updateCartItemQuantity s q c :
  NoDup (ids (docs c)) -> NoDup (ids (docs (snd (updateCartItemQuantity s q c)))).
Proof.
  intros Hc. pose proof (NoDup_ids_removeCartItem s c Hc) as Hrm.
  unfold updateCartItemQuantity, bind, construct, findOneAndUpdate, touch.
  destruct (isValid s) eqn:Hs; simpl; [|done].
  destruct (q <=? 0).
  - by destruct (removeCartItem s c) as [[b|e] c'].
  - destruct (newObjectId s); simpl; [|done].
    by rewrite ids_update_first.
Qed.

(** X2. No cart operation rewrites a line's identifier, book reference
    or added-at stamp: a line found after an operation either was stored
    before with the same three values, or is the line [addCartItem] has
    just created from its arguments. *)
Theorem X2_cart_lines_keep_identity op c d' :
  d' ∈ docs (exec op c) ->
  (exists d, d ∈ docs c /\ _id d = _id d' /\
             bookId (doc d) = bookId (doc d') /\ addedAt (doc d) = addedAt (doc d')) \/
  (exists newId now itemData o,
     op = AddCartItem newId now itemData /\
     newObjectId (data_bookId itemData) = Some o /\
     d' = mkDoc newId (mkCartDoc o (data_quantity itemData) now)).
Proof.
  assert (forall l, d' ∈ l -> exists d, d ∈ l /\ _id d = _id d' /\
            bookId (doc d) = bookId (doc d') /\ addedAt (doc d) = addedAt (doc d'))
    as Hsame by (intros l Hin; by exists d').
  destruct op as [newId now [b q]|s q|s|]; simpl.
  - unfold addCartItem, bind, construct, findOne, findOneAndUpdate, insertOne, touch; simpl.
    destruct (isValid b); simpl; [|by left; apply Hsame].
    destruct (newObjectId b) as [o|] eqn:Ho; simpl; [|by left; apply Hsame].
    destruct (List.find (by_bookId o) (docs c)) as [e|] eqn:Hfind; simpl.
    + intros Hin. left.
      apply (elem_of_update_first (by_id (_id e)) (js_add (quantity (doc e)) q)).
      by destruct (List.find (by_id (_id e)) (docs c)).
    + case_bool_decide as Hdup; simpl; [by left; apply Hsame|].
      intros Hin.
      assert (d' ∈ docs c ++ [mkDoc newId (mkCartDoc o q now)]) as Hin'
        by by destruct (List.find _ (_ ++ _)).
      apply elem_of_app in Hin' as [Hold|Hnew%list_elem_of_singleton].
      * left. by apply Hsame.
      * right. by exists newId, now, (mkItemData b q), o.
  - intros Hin0. left. revert Hin0.
    unfold updateCartItemQuantity, removeCartItem, bind, construct, findOneAndUpdate,
      deleteOne, touch.
    destruct (isValid s); simpl; [|apply Hsame].
    destruct (q <=? 0); simpl.
    + destruct (newObjectId s); simpl; [|apply Hsame].
      intros Hin%elem_of_remove_first. by apply Hsame.
    + destruct (newObjectId s); simpl; [|apply Hsame].
      apply elem_of_update_first.
  - intros Hin0. left. revert Hin0. unfold removeCartItem, bind, construct, deleteOne, touch.
    destruct (isValid s); simpl; [|apply Hsame].
    destruct (newObjectId s); simpl; [|apply Hsame].
    intros Hin%elem_of_remove_first. by apply Hsame.
  - by intros ?%elem_of_nil.
Qed.
End CartStore.

(** ** Cart operations one after the other *)

Section CartCompositions.
Context `{ObjectIdApi}.
Import Cart.
Implicit Types (c : CartColl) (e d : WithId CartItemDocument)
               (l pre post : list (WithId CartItemDocument)) (o : ObjectId).

Lemma NoDup_ids_split pre d post :
  NoDup (ids (pre ++ d :: post)) ->
  Forall (fun x => _id x <> _id d) pre /\ Forall (fun x => _id x <> _id d) post.
Proof.
  unfold ids. rewrite fmap_app, fmap_cons. intros Hnd.
  apply list.NoDup_app in Hnd as (_ & Hdisj & Hpost).
  apply list.NoDup_cons in Hpost as [Hd _].
  split; apply list.Forall_forall; intros x Hx Heq.
  - apply (Hdisj (_id x)); [by apply list_elem_of_fmap_2|]. rewrite Heq. by left.
  - apply Hd. rewrite <- Heq. by apply list_elem_of_fmap_2.
Qed.

Lemma filter_fmap_keep {A B} (f : A -> B) (P : B -> Prop) `{forall y, Decision (P y)}
    (l : list A) :
  Forall (fun x => P (f x)) l -> filter P (f <$> l) = f <$> l.
Proof.
  induction 1 as [|x l Hx _ IH]; [done|].
  rewrite fmap_cons, filter_cons_True by done. by rewrite IH.
Qed.

(** Removing a stored line by the print of its identifier. *)
Lemma removeCartItem_stored pre d post c :
  NoDup (ids (docs c)) ->
  docs c = pre ++ d :: post ->
  removeCartItem (toHexString (_id d)) c
  = (Ok true, mkColl (pre ++ post) (1 + roundtrips c)).
Proof.
  intros Hnd Hc. rewrite (removeCartItem_valid _ (_id d)) by apply newObjectId_toHexString.
  rewrite Hc in Hnd |- *. pose proof (find_by_id_unique _ _ _ Hnd) as Hpre.
  assert (by_id (_id d) d = true) as Hd by by apply by_id_true.
  rewrite (find_app_skip _ _ _ Hpre); simpl. rewrite Hd.
  rewrite (remove_first_split _ _ _ _ Hd Hpre).
  by rewrite bool_decide_eq_true_2 by eauto.
Qed.

(** X3. Every item [getCart] lists can be removed by the identifier it
    is listed under: [removeCartItem] returns [true], and the next
    [getCart] lists the other items, unchanged and in the same order. *)
Theorem X3_listed_line_can_be_removed c items c1 it :
  NoDup (ids (docs c)) ->
  getCart c = (Ok items, c1) ->
  it ∈ items ->
  exists c2 c3,
    removeCartItem (item_id it) c1 = (Ok true, c2) /\
    getCart c2 = (Ok (filter (fun x => item_id x <> item_id it) items), c3).
Proof.
  intros Hnd Hget Hit. rewrite getCart_run in Hget. injection Hget as <- <-.
  apply list_elem_of_fmap in Hit as (d & -> & Hd).
  apply list_elem_of_split in Hd as (pre & post & Hc).
  do 2 eexists. split.
  { simpl. by apply (removeCartItem_stored pre d post). }
  rewrite getCart_run; simpl. f_equal. f_equal.
  rewrite Hc in Hnd |- *. destruct (NoDup_ids_split _ _ _ Hnd) as [Hpre Hpost].
  rewrite !fmap_app, fmap_cons, filter_app, filter_cons_False by (simpl; tauto).
  rewrite !filter_fmap_keep; [done| |].
  - eapply Forall_impl; [exact Hpost|]. simpl. intros x Hx Heq. by apply Hx, toHexString_inj.
  - eapply Forall_impl; [exact Hpre|]. simpl. intros x Hx Heq. by apply Hx, toHexString_inj.
Qed.

(** Setting the quantity of a stored line by the print of its identifier. *)
Lemma updateCartItemQuantity_stored pre d post q c :
  NoDup (ids (docs c)) ->
  docs c = pre ++ d :: post ->
  0 < q ->
  updateCartItemQuantity (toHexString (_id d)) q c
  = (Ok (Some (mapMongoId (updated (set_quantity q) d))),
     mkColl (pre ++ updated (set_quantity q) d :: post) (1 + roundtrips c)).
Proof.
  intros Hnd Hc Hq.
  rewrite (updateCartItemQuantity_set _ (_id d)) by (apply newObjectId_toHexString || done).
  rewrite Hc in Hnd |- *. pose proof (find_by_id_unique _ _ _ Hnd) as Hpre.
  assert (by_id (_id d) d = true) as Hd by by apply by_id_true.
  rewrite (find_app_skip _ _ _ Hpre); simpl. rewrite Hd; simpl.
  by rewrite (update_first_split _ _ _ _ _ Hd Hpre).
Qed.

(** The line a returning [addCartItem] reports is stored, as reported. *)
Lemma addCartItem_reports_stored newId now b q c r c1 :
  NoDup (ids (docs c)) ->
  addCartItem newId now (mkItemData b q) c = (Ok r, c1) ->
  NoDup (ids (docs c1)) /\
  exists pre d post, docs c1 = pre ++ d :: post /\ r = mapMongoId d.
Proof.
  intros Hnd Hrun. split.
  { pose proof (NoDup_ids_addCartItem newId now (mkItemData b q) c Hnd) as Hnd1.
    by rewrite Hrun in Hnd1. }
  destruct (addCartItem_Ok_inv _ _ _ _ _ _ _ Hnd Hrun)
    as (o & Ho & [(pre & e & post & Hc & Hpre & He & -> & Hc1)|(Hnone & Hfresh & -> & Hc1)]).
  - by exists pre, (updated (set_quantity (js_add (quantity (doc e)) q)) e), post.
  - exists (docs c), (mkDoc newId (mkCartDoc o q now)), []. by split.
Qed.

(** X4. Setting a positive quantity on the line [addCartItem] has just
    returned overwrites its quantity: the line comes back with the new
    quantity and the same identifier, book and added-at stamp. *)
Theorem X4_set_after_add newId now b q q' c r c1 :
  NoDup (ids (docs c)) ->
  addCartItem newId now (mkItemData b q) c = (Ok r, c1) ->
  0 < q' ->
  exists c2,
    updateCartItemQuantity (item_id r) q' c1
    = (Ok (Some (mkCartItem (item_id r) (item_bookId r) q' (item_addedAt r))), c2).
Proof.
  intros Hnd Hrun Hq.
  destruct (addCartItem_reports_stored _ _ _ _ _ _ _ Hnd Hrun)
    as (Hnd1 & pre & d & post & Hc1 & ->).
  eexists. simpl. by rewrite (updateCartItemQuantity_stored pre d post q' c1).
Qed.

(** X5. Removing the line [addCartItem] has just returned, in a cart
    with at most one line per book: [removeCartItem] returns [true] and
    the cart has no line for the book any more; if the book had no line
    before the addition, the lines are back as they were. *)
Theorem X5_remove_after_add newId now b q c r c1 :
  NoDup (ids (docs c)) ->
  unique_books (docs c) ->
  addCartItem newId now (mkItemData b q) c = (Ok r, c1) ->
  exists c2,
    removeCartItem (item_id r) c1 = (Ok true, c2) /\
    lines_for b (docs c2) = [] /\
    (lines_for b (docs c) = [] -> docs c2 = docs c).
Proof.
  intros Hnd Huniq Hrun.
  destruct (addCartItem_reports_stored _ _ _ _ _ _ _ Hnd Hrun) as (Hnd1 & _).
  destruct (addCartItem_Ok_inv _ _ _ _ _ _ _ Hnd Hrun)
    as (o & Ho & [(pre & e & post & Hc & Hpre & He & -> & Hc1)|(Hnone & Hfresh & -> & Hc1)]).
  - eexists. split; [by apply (removeCartItem_stored pre _ post)|]. simpl.
    assert (Forall (fun x => by_bookId o x = false) post) as Hpost.
    { unfold unique_books, books in Huniq. rewrite Hc, fmap_app, fmap_cons in Huniq.
      apply list.NoDup_app in Huniq as (_ & _ & Hp).
      apply list.NoDup_cons in Hp as [Hp _].
      apply list.Forall_forall. intros x Hx. apply by_bookId_false. intros Heq.
      apply Hp. apply by_bookId_true in He. rewrite He, <- Heq.
      by apply (list_elem_of_fmap_2 (fun d => bookId (doc d))). }
    split.
    + unfold lines_for. rewrite filter_app.
      pose proof (lines_for_none _ _ _ Ho Hpre) as H1.
      pose proof (lines_for_none _ _ _ Ho Hpost) as H2.
      unfold lines_for in H1, H2. by rewrite H1, H2.
    + rewrite Hc, (lines_for_split _ _ _ _ _ Ho Hpre He). done.
  - eexists. split.
    { simpl. by apply (removeCartItem_stored (docs c) (mkDoc newId (mkCartDoc o q now)) []). }
    simpl. rewrite app_nil_r. split; [|done].
    by apply (lines_for_nil_find _ o).
Qed.

(** X6. Removing the same identifier a second time returns [false] and
    leaves the lines as the first removal left them. *)
Theorem X6_remove_twice s c :
  NoDup (ids (docs c)) ->
  exists r c1 c2,
    removeCartItem s c = (Ok r, c1) /\
    removeCartItem s c1 = (Ok false, c2) /\
    docs c2 = docs c1.
Proof.
  intros Hnd. destruct (isValid s) eqn:Hs.
  - destruct (isValid_newObjectId s) as [[o Ho] _]; [done|].
    rewrite (removeCartItem_valid _ _ _ Ho). do 3 eexists. split; [reflexivity|].
    rewrite (removeCartItem_valid _ _ _ Ho); simpl.
    pose proof (find_by_id_fresh _ _ (remove_first_by_id_absent o _ Hnd)) as Hgone.
    rewrite Hgone, (remove_first_None _ _ Hgone).
    by rewrite bool_decide_eq_false_2 by (by intros [? ?]).
  - rewrite (removeCartItem_invalid _ _ Hs). do 3 eexists. split; [reflexivity|].
    by rewrite (removeCartItem_invalid _ _ Hs).
Qed.

(** X7. [clearCart] reports as many deletions as [getCart] listed items
    just before, and the next [getCart] lists nothing. *)
Theorem X7_clear_empties c :
  exists items c0 c1 c2,
    getCart c = (Ok items, c0) /\
    clearCart c0 = (Ok (length items), c1) /\
    getCart c1 = (Ok [], c2).
Proof.
  rewrite getCart_run. do 4 eexists. split; [reflexivity|].
  unfold clearCart, deleteMany_all; simpl. rewrite length_fmap.
  split; [reflexivity|]. by rewrite getCart_run.
Qed.
End CartCompositions.

(** ** The cart handlers and the badge *)

Section CartHandlerFacts.
Context `{ObjectIdApi}.
Import Cart.
Implicit Types (c : CartColl) (e d : WithId CartItemDocument)
               (l pre post : list (WithId CartItemDocument)) (o : ObjectId).

(** What [removeCartItem] returns, on every string. *)
Lemma removeCartItem_outcome s c :
  exists r c',
    removeCartItem s c = (Ok r, c') /\
    (r = true -> exists pre e post, docs c = pre ++ e :: post /\ docs c' = pre ++ post) /\
    (r = false -> docs c' = docs c).
Proof.
  destruct (isValid s) eqn:Hv.
  - destruct (isValid_newObjectId s) as [[o Ho] _]; [done|].
    rewrite (removeCartItem_valid _ _ _ Ho). do 2 eexists. split; [reflexivity|]. simpl.
    destruct (List.find (by_id o) (docs c)) as [e|] eqn:Hfind.
    + apply find_split in Hfind as (pre & post & Hc & He & Hpre).
      split; [|by rewrite bool_decide_eq_true_2 by eauto].
      intros _. exists pre, e, post. split; [done|].
      by rewrite Hc, (remove_first_split _ _ _ _ He Hpre).
    + split; [by rewrite bool_decide_eq_false_2 by (by intros [? ?])|].
      intros _. by rewrite (remove_first_None _ _ Hfind).
  - rewrite (removeCartItem_invalid _ _ Hv). do 2 eexists. split; [reflexivity|].
    by split.
Qed.

(** The sum of the stored quantities. *)
Definition stored_total l : Z := foldr (fun d acc => quantity (doc d) + acc) 0 l.

(** No stored quantity is negative. *)
Definition nonnegative l : Prop := Forall (fun d => 0 <= quantity (doc d)) l.

Lemma stored_total_app l1 l2 : stored_total (l1 ++ l2) = stored_total l1 + stored_total l2.
Proof. unfold stored_total. induction l1 as [|x l1 IH]; simpl; lia. Qed.

Lemma stored_total_nonneg l : nonnegative l -> 0 <= stored_total l.
Proof. unfold stored_total. induction 1 as [|x l Hx _ IH]; simpl; lia. Qed.

Lemma number_or_zero_id q : Navbar.number_or_zero q = q.
Proof. unfold Navbar.number_or_zero. destruct (q =? 0) eqn:Hq; lia. Qed.

(** Summed one by one in doubles, quantities that are not negative add
    up exactly as long as their total is a safe integer. *)
Lemma total_listed l :
  nonnegative l -> stored_total l <= MAX_SAFE_INTEGER ->
  Navbar.total (mapMongoId <$> l) = stored_total l.
Proof.
  intros Hl Hsafe. unfold Navbar.total.
  assert (forall a, 0 <= a -> a + stored_total l <= MAX_SAFE_INTEGER ->
            fold_left (fun sum it => js_add sum (Navbar.number_or_zero (item_quantity it)))
              (mapMongoId <$> l) a = a + stored_total l) as Hacc.
  { clear Hsafe. induction Hl as [|x l Hx Hl IH]; intros a Ha Hsafe; simpl; [lia|].
    pose proof (stored_total_nonneg l Hl) as Hrest.
    simpl in Hsafe. fold (stored_total l) in Hsafe.
    rewrite number_or_zero_id, js_add_safe by (unfold MAX_SAFE_INTEGER in *; lia).
    rewrite IH by lia. fold (stored_total l). lia. }
  rewrite Hacc by lia. lia.
Qed.

Lemma badge_is_stored_total c :
  nonnegative (docs c) -> stored_total (docs c) <= MAX_SAFE_INTEGER ->
  Navbar.fetchCartCount (fst (CartHandlers.GET c)) = stored_total (docs c).
Proof.
  intros Hl Hsafe. unfold CartHandlers.GET. rewrite getCart_run. simpl.
  unfold Navbar.fetchCartCount; simpl. by apply total_listed.
Qed.

(** X8. In a cart whose quantities are not negative and whose total
    with the posted quantity is a safe integer: when [POST /api/cart]
    answers 201, the count the navigation bar computes from
    [GET /api/cart] has grown by exactly the posted quantity, whether the
    book was merged into a line or given a new one. *)
Theorem X8_badge_grows_by_posted_quantity newId now body c msg item c1 :
  NoDup (ids (docs c)) ->
  nonnegative (docs c) ->
  (forall q, CartRoute.quantity body = JNumber q ->
     stored_total (docs c) + q <= MAX_SAFE_INTEGER) ->
  CartRoute.POST newId now body c
  = (CartRoute.mkResponse 201 (CartRoute.ItemMessage msg item), c1) ->
  exists q,
    CartRoute.quantity body = JNumber q /\ 0 < q /\
    Navbar.fetchCartCount (fst (CartHandlers.GET c1))
    = Navbar.fetchCartCount (fst (CartHandlers.GET c)) + q.
Proof.
  intros Hnd Hpos Hsafe Hpost.
  unfold CartRoute.POST in Hpost. destruct body as [b v]; simpl in Hpost.
  destruct (CartRoute.missing b || _); [done|].
  destruct v as [| |x|q|x]; try done.
  destruct (q <=? 0) eqn:Hq; [done|]. apply Z.leb_gt in Hq.
  specialize (Hsafe q eq_refl).
  pose proof (stored_total_nonneg _ Hpos) as Htot.
  exists q. split; [done|]. split; [done|].
  destruct (addCartItem newId now _ c) as [[r|err] c'] eqn:Hrun; [|done].
  injection Hpost as _ -> ->.
  rewrite (badge_is_stored_total c) by (done || lia).
  destruct (addCartItem_Ok_inv _ _ _ _ _ _ _ Hnd Hrun)
    as (o & Ho & [(pre & e & post & Hc & _ & _ & _ & Hc1)|(_ & _ & _ & Hc1)]).
  - unfold nonnegative in Hpos. rewrite Hc in Hpos, Hsafe, Htot.
    apply Forall_app in Hpos as [Hpre Hpost]. apply list.Forall_cons in Hpost as [He Hpost].
    pose proof (stored_total_nonneg _ Hpre) as Hp1.
    pose proof (stored_total_nonneg _ Hpost) as Hp2.
    rewrite stored_total_app in Hsafe, Htot. simpl in Hsafe, Htot.
    fold (stored_total post) in Hsafe, Htot.
    assert (js_add (quantity (doc e)) q = quantity (doc e) + q) as Hsum
      by (apply js_add_safe; unfold MAX_SAFE_INTEGER in *; lia).
    rewrite badge_is_stored_total.
    + rewrite Hc, Hc1, !stored_total_app. simpl. rewrite Hsum. lia.
    + rewrite Hc1. apply Forall_app. split; [done|].
      apply list.Forall_cons. split; [simpl; rewrite Hsum; lia|done].
    + rewrite Hc1, stored_total_app. simpl. rewrite Hsum.
      fold (stored_total post). lia.
  - rewrite badge_is_stored_total.
    + rewrite Hc1, stored_total_app. simpl. lia.
    + rewrite Hc1. apply Forall_app. split; [done|].
      apply list.Forall_cons. split; [simpl; lia|constructor].
    + rewrite Hc1, stored_total_app. simpl. lia.
Qed.

(** X9. [PUT /api/cart] with a non-empty [cartItemId]: the quantity 0 is
    always answered 200 "removed", whether the identifier is malformed,
    unknown or that of a line, and leaves the collection as
    [removeCartItem] would; a positive quantity for an identifier under
    which no line is stored (malformed ones included) is answered 404 with
    the lines as they were; a quantity that is not a number, or is
    negative, is answered 400 with the collection untouched. *)
Theorem X9_put_outcomes cartItemId c :
  cartItemId <> "" ->
  (CartHandlers.PUT (CartHandlers.mkPutBody (Some cartItemId) (JNumber 0)) c
   = (CartHandlers.mkResponse 200
        (CartHandlers.Message "Cart item removed successfully (quantity set to 0)"),
      snd (removeCartItem cartItemId c))) /\
  (forall q, 0 < q ->
     (forall o, newObjectId cartItemId = Some o -> o ∉ ids (docs c)) ->
     exists c',
       CartHandlers.PUT (CartHandlers.mkPutBody (Some cartItemId) (JNumber q)) c
       = (CartHandlers.mkResponse 404
            (CartHandlers.ErrorMessage "Failed to update item. Item not found."), c') /\
       docs c' = docs c) /\
  (forall v, match v with JNumber q => q < 0 | JUndefined => False | _ => True end ->
     CartHandlers.PUT (CartHandlers.mkPutBody (Some cartItemId) v) c
     = (CartHandlers.mkResponse 400
          (CartHandlers.ErrorMessage "Quantity must be a non-negative number"), c)).
Proof.
  intros Hid.
  assert (CartHandlers.falsy (Some cartItemId) = false) as Hf.
  { simpl. by apply String.eqb_neq. }
  split; [|split].
  - unfold CartHandlers.PUT; simpl CartHandlers.cartItemId; simpl CartHandlers.quantity.
    rewrite Hf; simpl.
    destruct (isValid cartItemId) eqn:Hv.
    + by rewrite (updateCartItemQuantity_remove _ _ _ Hv) by lia.
    + by rewrite (updateCartItemQuantity_invalid _ _ _ Hv), (removeCartItem_invalid _ _ Hv).
  - intros q Hq Habsent.
    unfold CartHandlers.PUT; simpl CartHandlers.cartItemId; simpl CartHandlers.quantity.
    rewrite Hf; simpl.
    rewrite (proj2 (Z.ltb_ge q 0)) by lia.
    destruct (isValid cartItemId) eqn:Hv.
    + destruct (isValid_newObjectId cartItemId) as [[o Ho] _]; [done|].
      rewrite (updateCartItemQuantity_set _ _ _ _ Ho Hq).
      pose proof (find_by_id_fresh _ _ (Habsent o Ho)) as Hnone.
      rewrite Hnone, (update_first_None _ _ _ Hnone); simpl.
      rewrite (proj2 (Z.eqb_neq q 0)) by lia. by eexists.
    + rewrite (updateCartItemQuantity_invalid _ _ _ Hv).
      rewrite (proj2 (Z.eqb_neq q 0)) by lia. by eexists.
  - intros v Hv.
    unfold CartHandlers.PUT; simpl CartHandlers.cartItemId; simpl CartHandlers.quantity.
    rewrite Hf. destruct v as [| |x|q|x]; simpl; try done.
    by rewrite (proj2 (Z.ltb_lt q 0)) by done.
Qed.

(** X10. [DELETE /api/cart]: a non-empty [cartItemId] takes precedence
    over [clear]; the answer is then 200 or 404, it is 200 exactly when
    one line has gone, and never more than one line goes, even with
    [clear=true].  Without [cartItemId], [clear=true] empties the cart
    and reports the number of lines it held; any other query is
    answered 400 with the collection untouched. *)
Theorem X10_delete_outcomes c :
  (forall cartItemId clear, cartItemId <> "" ->
     exists st p c',
       CartHandlers.DELETE (CartHandlers.mkDeleteQuery (Some cartItemId) clear) c
       = (CartHandlers.mkResponse st p, c') /\
       ((st = 200%nat /\ S (length (docs c')) = length (docs c)) \/
        (st = 404%nat /\ docs c' = docs c))) /\
  (forall cartItemId, CartHandlers.falsy cartItemId = true ->
     exists c',
       CartHandlers.DELETE (CartHandlers.mkDeleteQuery cartItemId (Some "true")) c
       = (CartHandlers.mkResponse 200 (CartHandlers.ClearedMessage (length (docs c))), c') /\
       docs c' = []) /\
  (forall cartItemId clear,
     CartHandlers.falsy cartItemId = true -> clear <> Some "true" ->
     CartHandlers.DELETE (CartHandlers.mkDeleteQuery cartItemId clear) c
     = (CartHandlers.mkResponse 400
          (CartHandlers.ErrorMessage "Missing cartItemId or clear=true parameter"), c)).
Proof.
  split; [|split].
  - intros s clear Hs.
    assert (CartHandlers.falsy (Some s) = false) as Hf by (simpl; by apply String.eqb_neq).
    unfold CartHandlers.DELETE; simpl CartHandlers.q_cartItemId. rewrite Hf; simpl.
    destruct (removeCartItem_outcome s c) as (r & c' & Hrun & Htrue & Hfalse).
    rewrite Hrun. destruct r.
    + do 3 eexists. split; [reflexivity|]. left. split; [done|].
      destruct (Htrue eq_refl) as (pre & e & post & Hc & Hc').
      rewrite Hc, Hc', !length_app. simpl. lia.
    + do 3 eexists. split; [reflexivity|]. right. split; [done|by apply Hfalse].
  - intros s Hs. unfold CartHandlers.DELETE; simpl. rewrite Hs; simpl.
    by eexists.
  - intros s clear Hs Hclear. unfold CartHandlers.DELETE; simpl. rewrite Hs; simpl.
    by rewrite bool_decide_eq_false_2 by done.
Qed.
End CartHandlerFacts.

(** ** Stored documents, in any collection *)

Section StoredDocuments.
Context `{ObjectIdApi} {T : Type}.
Implicit Types (l pre post : list (WithId T)) (d : WithId T) (o : ObjectId).

Lemma find_by_id_stored pre d post :
  NoDup (ids (pre ++ d :: post)) ->
  List.find (by_id (_id d)) (pre ++ d :: post) = Some d.
Proof.
  intros Hnd. rewrite (find_app_skip _ _ _ (find_by_id_unique _ _ _ Hnd)); simpl.
  by rewrite (proj2 (by_id_true (_id d) d)).
Qed.

Lemma find_by_id_Some o d l : List.find (by_id o) l = Some d -> d ∈ l /\ _id d = o.
Proof.
  intros (pre & post & -> & Hd & _)%find_split. split.
  - apply elem_of_app. right. by left.
  - by apply by_id_true.
Qed.

Lemma find_by_id_None o l : List.find (by_id o) l = None <-> o ∉ ids l.
Proof.
  split; [|apply find_by_id_fresh].
  intros Hnone (d & -> & Hd)%list_elem_of_fmap.
  apply find_None_Forall in Hnone. rewrite list.Forall_forall in Hnone.
  specialize (Hnone d Hd). by apply by_id_false in Hnone.
Qed.

Lemma removed_id_is_absent o l : NoDup (ids l) -> o ∉ ids (remove_first (by_id o) l).
Proof.
  intros Hnd. destruct (List.find (by_id o) l) as [e|] eqn:Hfind.
  - apply find_split in Hfind as (pre & post & -> & He & Hpre).
    rewrite (remove_first_split _ _ _ _ He Hpre).
    apply by_id_true in He. subst o.
    unfold ids in *. rewrite fmap_app, fmap_cons in Hnd. rewrite fmap_app.
    apply list.NoDup_app in Hnd as (_ & Hdisj & Hpost).
    apply list.NoDup_cons in Hpost as [Hpost _].
    rewrite elem_of_app. intros [Hin|Hin]; [|done].
    apply (Hdisj _ Hin). by left.
  - rewrite (remove_first_None _ _ Hfind). by apply find_by_id_None.
Qed.

Lemma others_survive_removal o d l :
  d ∈ l -> _id d <> o -> d ∈ remove_first (by_id o) l.
Proof.
  induction l as [|x l IH]; simpl; [done|].
  intros [->|Hin]%elem_of_cons Hne.
  - rewrite (proj2 (by_id_false o x)) by done. by left.
  - destruct (by_id o x); [done|]. right. by apply IH.
Qed.

End StoredDocuments.

(** ** The catalog *)

Section CatalogFacts.
Context `{ObjectIdApi}.
Implicit Types (c : Books.BookColl) (d : WithId Books.BookData) (o : ObjectId).

Lemma getBookById_valid id o c :
  newObjectId id = Some o ->
  Books.getBookById id c
  = (Ok (Books.mapMongoId <$> List.find (by_id o) (docs c)),
     mkColl (docs c) (1 + roundtrips c)).
Proof.
  intros Ho. unfold Books.getBookById, bind, construct, findOne, touch.
  by rewrite (newObjectId_isValid _ _ Ho), Ho.
Qed.

Lemma updateBook_valid id o updates c :
  newObjectId id = Some o ->
  Books.updateBook id updates c
  = (Ok (Books.mapMongoId <$> (updated (Books.set_fields updates) <$>
           List.find (by_id o) (docs c))),
     mkColl (update_first (by_id o) (Books.set_fields updates) (docs c))
            (1 + roundtrips c)).
Proof.
  intros Ho. unfold Books.updateBook, bind, construct, findOneAndUpdate, touch.
  by rewrite (newObjectId_isValid _ _ Ho), Ho.
Qed.

Lemma deleteBook_valid id o c :
  newObjectId id = Some o ->
  Books.deleteBook id c
  = (Ok (bool_decide (is_Some (List.find (by_id o) (docs c)))),
     mkColl (remove_first (by_id o) (docs c)) (1 + roundtrips c)).
Proof.
  intros Ho. unfold Books.deleteBook, bind, construct, deleteOne, touch.
  rewrite (newObjectId_isValid _ _ Ho), Ho; simpl.
  by destruct (List.find _ _).
Qed.

Lemma getAllBooks_run c :
  Books.getAllBooks c
  = (Ok (Books.mapMongoId <$> docs c), mkColl (docs c) (1 + roundtrips c)).
Proof. unfold Books.getAllBooks, bind, find, touch; simpl. by rewrite filter_true. Qed.

(** X11. Updating a stored book returns the book with the supplied
    attributes replaced and the others kept, stores it in place of the
    old one without touching the other books, and a following
    [getBookById] returns the same record. *)
Theorem X11_update_then_get id updates c pre d post :
  NoDup (ids (docs c)) ->
  docs c = pre ++ d :: post ->
  newObjectId id = Some (_id d) ->
  let book := Books.mkBook (toHexString (_id d)) (Books.set_fields updates (doc d)) in
  exists c1 c2,
    Books.updateBook id updates c = (Ok (Some book), c1) /\
    docs c1 = pre ++ mkDoc (_id d) (Books.set_fields updates (doc d)) :: post /\
    Books.getBookById id c1 = (Ok (Some book), c2).
Proof.
  intros Hnd Hc Ho book. rewrite Hc in Hnd.
  assert (by_id (_id d) d = true) as Hd by by apply by_id_true.
  pose proof (find_by_id_unique _ _ _ Hnd) as Hpre.
  do 2 eexists. rewrite (updateBook_valid _ _ _ _ Ho), Hc.
  rewrite (find_by_id_stored _ _ _ Hnd), (update_first_split _ _ _ _ _ Hd Hpre); simpl.
  split; [reflexivity|]. split; [reflexivity|].
  rewrite (getBookById_valid _ _ _ Ho); simpl.
  rewrite (find_app_skip _ _ _ Hpre); simpl.
  by rewrite (proj2 (by_id_true (_id d) (updated (Books.set_fields updates) d))).
Qed.

(** X12. [deleteBook] on a well-formed identifier returns [true] exactly
    when a book was stored under it; afterwards [getBookById] finds
    nothing under it, and every book stored under another identifier is
    still there. *)
Theorem X12_delete_then_get id c :
  NoDup (ids (docs c)) ->
  isValid id = true ->
  exists o r c1 c2,
    newObjectId id = Some o /\
    Books.deleteBook id c = (Ok r, c1) /\
    (r = true <-> o ∈ ids (docs c)) /\
    Books.getBookById id c1 = (Ok None, c2) /\
    (forall d, d ∈ docs c -> _id d <> o -> d ∈ docs c1).
Proof.
  intros Hnd Hv. destruct (isValid_newObjectId id) as [[o Ho] _]; [done|].
  exists o. do 3 eexists. split; [done|].
  rewrite (deleteBook_valid _ _ _ Ho). split; [reflexivity|]. simpl.
  split; [|split].
  - rewrite bool_decide_eq_true. split.
    + intros [d Hd]. apply find_by_id_Some in Hd as [Hd <-].
      by apply list_elem_of_fmap_2.
    + intros Hin. destruct (List.find (by_id o) (docs c)) eqn:Hf; [eauto|].
      by apply find_by_id_None in Hf.
  - rewrite (getBookById_valid _ _ _ Ho); simpl.
    by rewrite (find_by_id_fresh _ _ (removed_id_is_absent o _ Hnd)).
  - intros d Hd Hne. by apply others_survive_removal.
Qed.

(** X13. A book created under a new identifier is listed by
    [getAllBooks] after all the books listed before, which are listed as
    before. *)
Theorem X13_created_book_is_listed_last newId bookData c :
  newId ∉ ids (docs c) ->
  exists books c0 book c1 c2,
    Books.getAllBooks c = (Ok books, c0) /\
    Books.createBook newId bookData c0 = (Ok book, c1) /\
    Books.getAllBooks c1 = (Ok (books ++ [book]), c2).
Proof.
  intros Hfresh. rewrite getAllBooks_run. do 5 eexists. split; [reflexivity|].
  unfold Books.createBook, bind, insertOne, findOne, touch; simpl.
  rewrite bool_decide_eq_false_2 by done; simpl.
  rewrite (find_by_id_inserted _ _ _ Hfresh); simpl.
  split; [reflexivity|]. rewrite getAllBooks_run; simpl. by rewrite fmap_app.
Qed.

(** X14. [DELETE /api/books/:id] answers 400 "Missing ID" for an empty
    id, with the collection untouched; for a non-empty id under which no
    book is stored (malformed ids included) it answers 404 "Book not
    found" with the books as they were; for the id of a stored book it
    answers 200 "Book deleted successfully", after which no book is
    stored under the id.  It never answers 500: its "Failed to delete
    book" branch is not reached. *)
Theorem X14_delete_book_route c :
  NoDup (ids (docs c)) ->
  BookIdRoute.DELETE "" c
  = (BookIdRoute.mkResponse 400 (BookIdRoute.ErrorMessage "Missing ID"), c) /\
  (forall id, id <> "" ->
     (forall o, newObjectId id = Some o -> o ∉ ids (docs c)) ->
     exists c',
       BookIdRoute.DELETE id c
       = (BookIdRoute.mkResponse 404 (BookIdRoute.ErrorMessage "Book not found"), c') /\
       docs c' = docs c) /\
  (forall id o, id <> "" -> newObjectId id = Some o -> o ∈ ids (docs c) ->
     exists c',
       BookIdRoute.DELETE id c
       = (BookIdRoute.mkResponse 200
            (BookIdRoute.Message "Book deleted successfully"), c') /\
       (o ∉ ids (docs c')) /\
       (forall d, d ∈ docs c -> _id d <> o -> d ∈ docs c')) /\
  (forall id, BookIdRoute.status (fst (BookIdRoute.DELETE id c)) <> 500%nat).
Proof.
  intros Hnd.
  assert (forall id o, id <> "" -> newObjectId id = Some o -> o ∈ ids (docs c) ->
            exists c',
              BookIdRoute.DELETE id c
              = (BookIdRoute.mkResponse 200
                   (BookIdRoute.Message "Book deleted successfully"), c') /\
              (o ∉ ids (docs c')) /\
              (forall d, d ∈ docs c -> _id d <> o -> d ∈ docs c')) as Hstored.
  { intros id o Hid Ho Hin. unfold BookIdRoute.DELETE.
    rewrite (proj2 (String.eqb_neq id "")) by done.
    rewrite (getBookById_valid _ _ _ Ho).
    destruct (List.find (by_id o) (docs c)) as [d|] eqn:Hfind.
    - rewrite (deleteBook_valid _ _ _ Ho). cbn [docs fmap option_fmap option_map].
      rewrite Hfind, bool_decide_eq_true_2 by eauto.
      eexists. split; [reflexivity|]. cbn [docs]. split.
      + by apply removed_id_is_absent.
      + intros x Hx Hne. by apply others_survive_removal.
    - by apply find_by_id_None in Hfind. }
  assert (forall id, id <> "" ->
            (forall o, newObjectId id = Some o -> o ∉ ids (docs c)) ->
            exists c',
              BookIdRoute.DELETE id c
              = (BookIdRoute.mkResponse 404 (BookIdRoute.ErrorMessage "Book not found"), c')
              /\ docs c' = docs c) as Habsent.
  { intros id Hid Hno. unfold BookIdRoute.DELETE.
    rewrite (proj2 (String.eqb_neq id "")) by done.
    destruct (isValid id) eqn:Hv.
    - destruct (isValid_newObjectId id) as [[o Ho] _]; [done|].
      rewrite (getBookById_valid _ _ _ Ho).
      rewrite (find_by_id_fresh _ _ (Hno o Ho)). by eexists.
    - unfold Books.getBookById. rewrite Hv. by eexists. }
  split; [done|]. split; [exact Habsent|]. split; [exact Hstored|].
  intros id. destruct (String.eqb id "") eqn:Hid.
  - apply String.eqb_eq in Hid. by subst id.
  - apply String.eqb_neq in Hid.
    destruct (newObjectId id) as [o|] eqn:Ho.
    + destruct (decide (o ∈ ids (docs c))) as [Hin|Hout].
      * destruct (Hstored id o Hid Ho Hin) as (c' & -> & _). done.
      * destruct (Habsent id Hid) as (c' & -> & _); [|done].
        intros o' Ho'. congruence.
    + destruct (Habsent id Hid) as (c' & -> & _); [|done].
      intros o' Ho'. congruence.
Qed.
End CatalogFacts.

(** ** The reviews *)

Section ReviewFacts.
Context `{ObjectIdApi}.
Implicit Types (c : Reviews.ReviewColl) (d : WithId Reviews.ReviewDocument) (o : ObjectId).

(** The reviews stored for the book [o]. *)
Definition reviews_of o (l : list (WithId Reviews.ReviewDocument))
    : list (WithId Reviews.ReviewDocument) :=
  filter (fun d => Reviews.by_bookId o d = true) l.

Lemma getReviewsByBookId_valid b o c :
  newObjectId b = Some o ->
  Reviews.getReviewsByBookId b c
  = (Ok (Some (Reviews.mapMongoId <$> reviews_of o (docs c))),
     mkColl (docs c) (1 + roundtrips c)).
Proof.
  intros Ho. unfold Reviews.getReviewsByBookId, bind, construct, find, touch.
  by rewrite (newObjectId_isValid _ _ Ho), Ho.
Qed.

Lemma getReviewById_valid id o c :
  newObjectId id = Some o ->
  Reviews.getReviewById id c
  = (Ok (Reviews.mapMongoId <$> List.find (by_id o) (docs c)),
     mkColl (docs c) (1 + roundtrips c)).
Proof.
  intros Ho. unfold Reviews.getReviewById, bind, construct, findOne, touch.
  by rewrite (newObjectId_isValid _ _ Ho), Ho.
Qed.

Lemma deleteReview_valid id o c :
  newObjectId id = Some o ->
  Reviews.deleteReview id c
  = (Ok (bool_decide (is_Some (List.find (by_id o) (docs c)))),
     mkColl (remove_first (by_id o) (docs c)) (1 + roundtrips c)).
Proof.
  intros Ho. unfold Reviews.deleteReview, bind, construct, deleteOne, touch.
  rewrite (newObjectId_isValid _ _ Ho), Ho; simpl.
  by destruct (List.find _ _).
Qed.

Lemma getAllReviews_run c :
  Reviews.getAllReviews c
  = (Ok (Reviews.mapMongoId <$> docs c), mkColl (docs c) (1 + roundtrips c)).
Proof. unfold Reviews.getAllReviews, bind, find, touch; simpl. by rewrite filter_true. Qed.

Lemma createReview_malformed newId now reviewData c :
  isValid (Reviews.in_bookId reviewData) = false ->
  Reviews.createReview newId now reviewData c = (Throw BSONError, c).
Proof.
  intros Hb. unfold Reviews.createReview, bind, construct.
  by rewrite (isValid_false_newObjectId _ Hb).
Qed.

(** X16. [createReview] does not check the book reference before
    converting it: on a malformed [bookId] the conversion throws a
    BSON error and no review is stored; [POST /api/reviews] then
    answers 500 "An error occurred while creating the review.", with
    the reviews as they were. *)
Theorem X16_create_review_malformed_book newId now c :
  (forall reviewData,
     isValid (Reviews.in_bookId reviewData) = false ->
     exists c',
       Reviews.createReview newId now reviewData c = (Throw BSONError, c') /\
       docs c' = docs c) /\
  (forall routeNow b a rt t cm ts v,
     isValid b = false ->
     exists c',
       ReviewRoute.POST newId routeNow now
         (ReviewRoute.mkBody (Some b) (Some a) (Some rt) (Some t) (Some cm) ts v) c
       = (ReviewRoute.mkResponse 500
            (ReviewRoute.ErrorMessage "An error occurred while creating the review."), c') /\
       docs c' = docs c).
Proof.
  split.
  - intros reviewData Hb. exists c. by rewrite createReview_malformed.
  - intros routeNow b a rt t cm ts v Hb. exists c. unfold ReviewRoute.POST; simpl.
    by rewrite createReview_malformed.
Qed.

(** X17. [getReviewsByBookId] lists only reviews of the book asked for.
    A review created for a book is listed last among that book's reviews
    by the next [getReviewsByBookId]; the list of any other book is as
    before. *)
Theorem X17_created_review_is_listed newId now reviewData c b :
  isValid (Reviews.in_bookId reviewData) = true ->
  newId ∉ ids (docs c) ->
  isValid b = true ->
  exists before c0 r c1 after c2,
    Reviews.getReviewsByBookId b c = (Ok (Some before), c0) /\
    Forall (fun x => newObjectId (Reviews.r_bookId x) = newObjectId b) before /\
    Reviews.createReview newId now reviewData c0 = (Ok r, c1) /\
    Reviews.getReviewsByBookId b c1 = (Ok (Some after), c2) /\
    (newObjectId b = newObjectId (Reviews.in_bookId reviewData) -> after = before ++ [r]) /\
    (newObjectId b <> newObjectId (Reviews.in_bookId reviewData) -> after = before).
Proof.
  intros Hnew Hfresh Hb.
  destruct (isValid_newObjectId b) as [[o Ho] _]; [done|].
  destruct (isValid_newObjectId (Reviews.in_bookId reviewData)) as [[o' Ho'] _]; [done|].
  rewrite (getReviewsByBookId_valid _ _ _ Ho). do 6 eexists. split; [reflexivity|].
  split.
  { apply list.Forall_forall. intros x (d & -> & Hd)%list_elem_of_fmap.
    apply list_elem_of_filter in Hd as [Hd _]. simpl.
    apply bool_decide_eq_true in Hd. by rewrite newObjectId_toHexString, Ho, Hd. }
  rewrite (createReview_stores newId now reviewData _ o') by done.
  split; [reflexivity|].
  rewrite (getReviewsByBookId_valid _ _ _ Ho); simpl. split; [reflexivity|].
  unfold reviews_of. rewrite filter_app. rewrite Ho, Ho'. split.
  - intros [= ->]. rewrite filter_cons_True, filter_nil, fmap_app; [done|].
    unfold Reviews.by_bookId; simpl. by apply bool_decide_eq_true.
  - intros Hne. rewrite filter_cons_False, filter_nil, app_nil_r; [done|].
    unfold Reviews.by_bookId; simpl. rewrite bool_decide_eq_true. congruence.
Qed.

(** X18. An update that supplies a well-formed, non-empty [bookId] for
    a stored review points the review at that book: the review comes
    back under its own identifier with the new book reference, and is
    stored in place of the old one. *)
Theorem X18_update_moves_review id updates b c pre d post :
  NoDup (ids (docs c)) ->
  docs c = pre ++ d :: post ->
  newObjectId id = Some (_id d) ->
  Reviews.u_bookId updates = Some b ->
  b <> "" ->
  isValid b = true ->
  exists o' r c1 d',
    newObjectId b = Some o' /\
    Reviews.updateReview id updates c = (Ok (Some r), c1) /\
    r = Reviews.mapMongoId d' /\
    _id d' = _id d /\
    Reviews.bookId (doc d') = o' /\
    Reviews.r_bookId r = toHexString o' /\
    docs c1 = pre ++ d' :: post.
Proof.
  intros Hnd Hc Ho Hub Hne Hb. rewrite Hc in Hnd.
  destruct (isValid_newObjectId b) as [[o' Ho'] _]; [done|].
  assert (by_id (_id d) d = true) as Hd by by apply by_id_true.
  pose proof (find_by_id_unique _ _ _ Hnd) as Hpre.
  exists o'. do 3 eexists. split; [done|].
  unfold Reviews.updateReview, Reviews.usable_bookId, bind, construct,
    findOneAndUpdate, touch.
  rewrite (newObjectId_isValid _ _ Ho), Hub, Hb; simpl.
  rewrite (proj2 (String.eqb_neq b "")) by done; simpl.
  rewrite Ho', Ho; simpl. rewrite Hc.
  rewrite (find_by_id_stored _ _ _ Hnd), (update_first_split _ _ _ _ _ Hd Hpre); simpl.
  split; [reflexivity|]. by repeat split.
Qed.

(** X19. A review created under a new identifier is found by
    [getReviewById] under the identifier it was returned with, as it was
    returned. *)
Theorem X19_create_review_then_get newId now reviewData c :
  isValid (Reviews.in_bookId reviewData) = true ->
  newId ∉ ids (docs c) ->
  exists r c1 c2,
    Reviews.createReview newId now reviewData c = (Ok r, c1) /\
    Reviews.getReviewById (Reviews.r_id r) c1 = (Ok (Some r), c2).
Proof.
  intros Hb Hfresh.
  destruct (isValid_newObjectId (Reviews.in_bookId reviewData)) as [[o Ho] _]; [done|].
  rewrite (createReview_stores newId now reviewData c o) by done.
  do 3 eexists. split; [reflexivity|]. simpl.
  rewrite (getReviewById_valid _ newId) by apply newObjectId_toHexString. simpl.
  by rewrite (find_by_id_inserted _ _ _ Hfresh).
Qed.

(** X20. [DELETE /api/reviews/:id] with a non-empty id answers 200 when
    a review is stored under the id and 404 otherwise (malformed ids
    included); either way [GET /api/reviews/:id] answers 404
    afterwards, and the reviews stored under other identifiers are
    still there. *)
Theorem X20_delete_review_route id c :
  NoDup (ids (docs c)) ->
  id <> "" ->
  exists st p c1 p' c2,
    ReviewIdRoute.DELETE id c = (ReviewIdRoute.mkResponse st p, c1) /\
    ((st = 200%nat /\ exists o, newObjectId id = Some o /\ o ∈ ids (docs c)) \/
     (st = 404%nat /\ docs c1 = docs c /\
      forall o, newObjectId id = Some o -> o ∉ ids (docs c))) /\
    ReviewIdRoute.GET id c1 = (ReviewIdRoute.mkResponse 404 p', c2) /\
    (forall d, d ∈ docs c -> newObjectId id <> Some (_id d) -> d ∈ docs c1).
Proof.
  intros Hnd Hid. unfold ReviewIdRoute.DELETE, ReviewIdRoute.GET.
  rewrite (proj2 (String.eqb_neq id "")) by done.
  destruct (isValid id) eqn:Hv.
  - destruct (isValid_newObjectId id) as [[o Ho] _]; [done|].
    rewrite (deleteReview_valid _ _ _ Ho).
    destruct (List.find (by_id o) (docs c)) as [d|] eqn:Hfind.
    + rewrite bool_decide_eq_true_2 by eauto.
      do 5 eexists. split; [reflexivity|]. split; [|split].
      * left. split; [done|]. exists o. split; [done|].
        apply find_by_id_Some in Hfind as [Hd <-]. by apply list_elem_of_fmap_2.
      * rewrite (getReviewById_valid _ _ _ Ho); simpl.
        by rewrite (find_by_id_fresh _ _ (removed_id_is_absent o _ Hnd)).
      * simpl. intros x Hx Hne. apply others_survive_removal; [done|]. congruence.
    + rewrite bool_decide_eq_false_2 by (by intros [? ?]).
      do 5 eexists. split; [reflexivity|]. simpl.
      rewrite (remove_first_None _ _ Hfind). split; [|split].
      * right. split; [done|]. split; [done|].
        intros o' Ho'. rewrite Ho in Ho'. injection Ho' as <-. by apply find_by_id_None.
      * rewrite (getReviewById_valid _ _ _ Ho); simpl. by rewrite Hfind.
      * done.
  - unfold Reviews.deleteReview, Reviews.getReviewById. rewrite Hv; simpl.
    do 5 eexists. split; [reflexivity|]. split; [|split; [reflexivity|done]].
    right. split; [done|]. split; [done|].
    intros o Ho. apply newObjectId_isValid in Ho. congruence.
Qed.

(** X21. [GET /api/reviews]: without a [bookId], or with an empty one,
    every review is listed; a malformed [bookId] is answered 400 without
    a driver call; a well-formed one is answered with the reviews of
    that book, an empty list when it has none. *)
Theorem X21_get_reviews_route c :
  (forall bookId, bookId = None \/ bookId = Some "" ->
     exists c',
       ReviewListRoute.GET bookId c
       = (ReviewListRoute.mkResponse 200
            (ReviewListRoute.ReviewList (Reviews.mapMongoId <$> docs c)), c')) /\
  (forall b, b <> "" -> isValid b = false ->
     ReviewListRoute.GET (Some b) c
     = (ReviewListRoute.mkResponse 400
          (ReviewListRoute.ErrorMessage "Invalid Book ID format"), c)) /\
  (forall b o, b <> "" -> newObjectId b = Some o ->
     exists c',
       ReviewListRoute.GET (Some b) c
       = (ReviewListRoute.mkResponse 200
            (ReviewListRoute.ReviewList (Reviews.mapMongoId <$> reviews_of o (docs c))), c') /\
       (o ∉ (fun d => Reviews.bookId (doc d)) <$> docs c -> reviews_of o (docs c) = [])).
Proof.
  split; [|split].
  - intros bookId [->| ->]; unfold ReviewListRoute.GET;
      rewrite ?String.eqb_refl, getAllReviews_run; by eexists.
  - intros b Hne Hb. unfold ReviewListRoute.GET.
    rewrite (proj2 (String.eqb_neq b "")) by done.
    unfold Reviews.getReviewsByBookId. by rewrite Hb.
  - intros b o Hne Ho. unfold ReviewListRoute.GET.
    rewrite (proj2 (String.eqb_neq b "")) by done.
    rewrite (getReviewsByBookId_valid _ _ _ Ho). eexists. split; [reflexivity|].
    intros Habs. unfold reviews_of.
    induction (docs c) as [|x l IH]; [done|].
    rewrite fmap_cons in Habs. apply not_elem_of_cons in Habs as [Hx Hl].
    rewrite filter_cons_False; [by apply IH|].
    unfold Reviews.by_bookId. rewrite bool_decide_eq_true. congruence.
Qed.
End ReviewFacts.

(** ** The handlers of the catalog and of the reviews *)

Section HandlerFacts.
Context `{ObjectIdApi}.

(** X15. [POST /api/books] answers 400, with the store untouched, as
    soon as the body lacks one attribute of a book; a body with every
    attribute is stored under the generated identifier, when that is
    new, and answered 200 with the stored book. *)
Theorem X15_post_book newId body c :
  (complete body = None ->
     exists msg,
       BooksRoute.POST newId body c
       = (BooksRoute.mkResponse 400 (BooksRoute.ErrorMessage msg), c)) /\
  (forall bookData, complete body = Some bookData -> newId ∉ ids (docs c) ->
     exists c',
       BooksRoute.POST newId body c
       = (BooksRoute.mkResponse 200
            (BooksRoute.NewBookMessage "Book added successfully"
               (Books.mkBook (toHexString newId) bookData)), c') /\
       docs c' = docs c ++ [mkDoc newId bookData]).
Proof.
  unfold complete, BooksRoute.POST, BooksRoute.required. destruct body; simpl.
  repeat match goal with
         | |- context [match ?x with Some _ => _ | None => _ end] =>
             is_var x; destruct x; simpl; [|split; [eauto|done]]
         end.
  split; [done|]. intros bookData [= <-] Hfresh.
  unfold Books.createBook, bind, insertOne, findOne, touch; simpl.
  rewrite bool_decide_eq_false_2 by done; simpl.
  rewrite (find_by_id_inserted _ _ _ Hfresh); simpl. by eexists.
Qed.
End HandlerFacts.

(** ** The cached connection *)

Section ConnectionFacts.
Context {MongoClient Db : Type} (db_of : MongoClient -> Db).

Lemma connectToDatabase_cached attempt (st : Mongodb.Cache) client db :
  Mongodb.cachedClient st = Some client ->
  Mongodb.cachedDb st = Some db ->
  Mongodb.connectToDatabase db_of attempt st = (Some (client, db), st).
Proof. intros Hc Hd. unfold Mongodb.connectToDatabase. by rewrite Hc, Hd. Qed.

(** X22. Once [connectToDatabase] has returned a handle, every later
    call returns that same client and database, whatever the driver
    would answer to a new connection attempt, and none of them calls
    [MongoClient.connect]. *)
Theorem X22_connection_is_cached attempt (st : Mongodb.Cache) client db st1 attempts :
  Mongodb.connectToDatabase db_of attempt st = (Some (client, db), st1) ->
  Mongodb.connectAll db_of attempts st1
  = (replicate (length attempts) (Some (client, db)), st1).
Proof.
  intros Hfirst.
  assert (Mongodb.cachedClient st1 = Some client /\ Mongodb.cachedDb st1 = Some db)
    as [Hc Hd].
  { unfold Mongodb.connectToDatabase in Hfirst.
    destruct (Mongodb.cachedClient st) as [cl|] eqn:Hcl,
             (Mongodb.cachedDb st) as [d|] eqn:Hdb, attempt as [a|];
      simplify_eq; by simpl. }
  induction attempts as [|a attempts IH]; simpl; [done|].
  by rewrite (connectToDatabase_cached a st1 client db Hc Hd), IH.
Qed.
End ConnectionFacts.

(** ** The seed script *)

Section SeedFacts.
Context `{ObjectIdApi}.

Lemma mapFrom_other i books insertedIds (m : gmap string ObjectId) k :
  k ∉ books.*1 -> Seed.mapFrom i books insertedIds m !! k = m !! k.
Proof.
  revert i m. induction books as [|b books IH]; intros i m Hk; simpl; [done|].
  rewrite fmap_cons in Hk. apply not_elem_of_cons in Hk as [Hne Hk].
  rewrite IH by done. destruct (insertedIds !! i).
  - by rewrite lookup_insert_ne.
  - by rewrite lookup_delete_ne.
Qed.

Lemma mapFrom_at i books insertedIds (m : gmap string ObjectId) j b newId :
  NoDup books.*1 ->
  books !! j = Some b ->
  insertedIds !! (i + j)%nat = Some newId ->
  Seed.mapFrom i books insertedIds m !! b.1 = Some newId.
Proof.
  revert i m j. induction books as [|x books IH]; intros i m j Hnd Hb Hid; [done|].
  rewrite fmap_cons in Hnd. apply list.NoDup_cons in Hnd as [Hx Hnd]. simpl.
  destruct j as [|j]; simpl in Hb.
  - injection Hb as ->. rewrite mapFrom_other by done.
    rewrite Nat.add_0_r in Hid. rewrite Hid. by rewrite lookup_insert_eq.
  - apply (IH (S i) _ j); [done|done|].
    by replace (S i + j)%nat with (i + S j)%nat by lia.
Qed.

Lemma booksToInsert_keys localBooks :
  (Seed.booksToInsert localBooks).*1 = Books.id <$> localBooks.
Proof. unfold Seed.booksToInsert. by rewrite <- list_fmap_compose. Qed.

Lemma idMapping_at localBooks insertedIds i b :
  NoDup (Books.id <$> localBooks) ->
  length insertedIds = length localBooks ->
  localBooks !! i = Some b ->
  exists newId,
    insertedIds !! i = Some newId /\
    Seed.idMapping localBooks insertedIds !! Books.id b = Some newId.
Proof.
  intros Hnd Hlen Hb. destruct (insertedIds !! i) as [newId|] eqn:Hid.
  - exists newId. split; [done|]. unfold Seed.idMapping.
    apply (mapFrom_at 0 _ _ _ i (Books.id b, Books.fields b)).
    + by rewrite booksToInsert_keys.
    + unfold Seed.booksToInsert. by rewrite list_lookup_fmap, Hb.
    + done.
  - apply lookup_ge_None in Hid. apply lookup_lt_Some in Hb. lia.
Qed.

Lemma idMapping_other localBooks insertedIds k :
  k ∉ Books.id <$> localBooks -> Seed.idMapping localBooks insertedIds !! k = None.
Proof.
  intros Hk. unfold Seed.idMapping.
  rewrite mapFrom_other by by rewrite booksToInsert_keys. apply lookup_empty.
Qed.

(** X23. When the local books have pairwise distinct ids and
    [insertMany] reported one identifier per book, the mapping
    [seedBooks] builds sends each book's old id to the identifier
    reported at that book's position, and has no entry for any other
    id. *)
Theorem X23_idMapping_follows_positions localBooks insertedIds :
  NoDup (Books.id <$> localBooks) ->
  length insertedIds = length localBooks ->
  (forall i b, localBooks !! i = Some b ->
     exists newId,
       insertedIds !! i = Some newId /\
       Seed.idMapping localBooks insertedIds !! Books.id b = Some newId) /\
  (forall k, k ∉ Books.id <$> localBooks ->
     Seed.idMapping localBooks insertedIds !! k = None).
Proof.
  intros Hnd Hlen. split.
  - intros i b Hb. by apply idMapping_at.
  - intros k Hk. by apply idMapping_other.
Qed.

Lemma omap_length_filter {A B} (f : A -> option B) (l : list A) :
  length (omap f l) = length (filter (fun x => is_Some (f x)) l).
Proof.
  induction l as [|x l IH]; [done|].
  destruct (f x) eqn:Hx.
  - rewrite filter_cons_True by (rewrite Hx; eauto).
    change (omap f (x :: l)) with (match f x with Some y => y :: omap f l | None => omap f l end).
    rewrite Hx. simpl. by f_equal.
  - rewrite filter_cons_False by (rewrite Hx; by intros [? ?]).
    change (omap f (x :: l)) with (match f x with Some y => y :: omap f l | None => omap f l end).
    by rewrite Hx.
Qed.

(** X24. Under the same conditions, every review [seedReviews] prepares
    for insertion refers to an identifier [insertMany] reported for a
    book, namely the one reported for the book whose old id the local
    review names; a local review naming a book that is not among the
    local books is dropped, and nothing else is: as many reviews are
    prepared as name a local book. *)
Theorem X24_seeded_reviews_reference_seeded_books localBooks insertedIds localReviews :
  NoDup (Books.id <$> localBooks) ->
  length insertedIds = length localBooks ->
  let prepared :=
    Seed.reviewsToInsert localReviews (Seed.idMapping localBooks insertedIds) in
  (forall d, d ∈ prepared ->
     exists review i b,
       review ∈ localReviews /\ localBooks !! i = Some b /\
       Books.id b = Reviews.r_bookId review /\
       insertedIds !! i = Some (Reviews.bookId d) /\
       d = Reviews.mkReviewDoc (Reviews.bookId d) (Reviews.r_author review)
             (Reviews.r_rating review) (Reviews.r_title review)
             (Reviews.r_comment review) (Reviews.r_timestamp review)
             (Reviews.r_verified review)) /\
  length prepared
  = length (filter (fun review => Reviews.r_bookId review ∈ Books.id <$> localBooks)
              localReviews).
Proof.
  intros Hnd Hlen prepared.
  pose proof (fun i b => idMapping_at localBooks insertedIds i b Hnd Hlen) as Hat.
  pose proof (idMapping_other localBooks insertedIds) as Hother.
  split.
  - intros d Hd. unfold prepared, Seed.reviewsToInsert in Hd.
    apply list_elem_of_omap in Hd as (review & Hr & Hmap).
    destruct (Seed.idMapping localBooks insertedIds !! Reviews.r_bookId review)
      as [newId|] eqn:Hlook; [|done].
    injection Hmap as <-. simpl.
    destruct (decide (Reviews.r_bookId review ∈ Books.id <$> localBooks)) as [Hin|Hout].
    + apply list_elem_of_fmap in Hin as (b & Hb & Hbin).
      apply list_elem_of_lookup in Hbin as [i Hi].
      destruct (Hat i b Hi) as (newId' & Hid & Hlook').
      rewrite <- Hb, Hlook in Hlook'. injection Hlook' as <-.
      by exists review, i, b.
    + by rewrite (Hother _ Hout) in Hlook.
  - unfold prepared, Seed.reviewsToInsert. rewrite omap_length_filter.
    f_equal. apply list_filter_iff. intros review.
    destruct (decide (Reviews.r_bookId review ∈ Books.id <$> localBooks)) as [Hin|Hout].
    + apply list_elem_of_fmap in Hin as Hin'. destruct Hin' as (b & Hb & Hbin).
      apply list_elem_of_lookup in Hbin as [i Hi].
      destruct (Hat i b Hi) as (newId' & Hid & Hlook').
      rewrite <- Hb in Hlook'. rewrite Hlook'. split; [done|eauto].
    + rewrite (Hother _ Hout). split; [by intros [? ?]|done].
Qed.
End SeedFacts.

(** ** The cart page *)

Section CartPageFacts.
Context `{ObjectIdApi}.

Lemma byId_lookup (l : list (WithId Books.BookData)) (m : gmap string Books.Book) o :
  NoDup (ids l) ->
  fold_left (fun m b => <[Books.id b := b]> m) (Books.mapMongoId <$> l) m
    !! toHexString o
  = match List.find (by_id o) l with
    | Some d => Some (Books.mapMongoId d)
    | None => m !! toHexString o
    end.
Proof.
  revert m. induction l as [|x l IH]; intros m Hnd; simpl; [done|].
  unfold ids in Hnd. rewrite fmap_cons in Hnd.
  apply list.NoDup_cons in Hnd as [Hx Hnd]. rewrite IH by done.
  destruct (by_id o x) eqn:Hox.
  - apply by_id_true in Hox. subst o.
    rewrite (find_by_id_fresh _ _ Hx). simpl. by rewrite lookup_insert_eq.
  - apply by_id_false in Hox. destruct (List.find (by_id o) l); [done|].
    simpl. rewrite lookup_insert_ne; [done|].
    intros Heq. by apply Hox, toHexString_inj.
Qed.

Lemma omap_fmap_ext {A B C} (g : A -> B) (f : B -> option C) (h : A -> option C)
    (l : list A) :
  (forall x, f (g x) = h x) -> omap f (g <$> l) = omap h l.
Proof.
  intros Hext. induction l as [|x l IH]; [done|]. rewrite fmap_cons.
  change (omap f (g x :: (g <$> l)))
    with (match f (g x) with Some y => y :: omap f (g <$> l) | None => omap f (g <$> l) end).
  change (omap h (x :: l))
    with (match h x with Some y => y :: omap h l | None => omap h l end).
  by rewrite Hext, IH.
Qed.

(** X25. From what [getCart] and [getAllBooks] return, the cart page
    shows, in cart order, exactly the lines whose book is in the
    catalog, each with the stored book, the line's quantity and the
    line's identifier; a line whose book is not in the catalog is not
    shown. *)
Theorem X25_cart_page_shows_lines_with_a_book
    (cc : Cart.CartColl) (bc : Books.BookColl) cartData cc' booksList bc' :
  NoDup (ids (docs bc)) ->
  Cart.getCart cc = (Ok cartData, cc') ->
  Books.getAllBooks bc = (Ok booksList, bc') ->
  CartPage.combined cartData booksList
  = omap (fun d =>
            match List.find (by_id (Cart.bookId (doc d))) (docs bc) with
            | Some b =>
                Some (CartPage.mkEntry (Books.mapMongoId b) (Cart.quantity (doc d))
                        (toHexString (_id d)))
            | None => None
            end) (docs cc).
Proof.
  intros Hnd Hcart Hbooks. rewrite getCart_run in Hcart. rewrite getAllBooks_run in Hbooks.
  injection Hcart as <- _. injection Hbooks as <- _.
  unfold CartPage.combined, CartPage.byId. apply omap_fmap_ext. intros d. simpl.
  rewrite (byId_lookup _ _ _ Hnd), lookup_empty.
  by destruct (List.find _ (docs bc)).
Qed.
End CartPageFacts.

(** ** The properties at sample data *)

Module Instances.
Import Hex24 Sample.

(** Decide a closed proposition by evaluating its decision procedure. *)
Ltac evaluate := apply (bool_decide_unpack _); vm_compute; exact I.

(** Two additions of book A to a cart that holds two copies of it. *)
Lemma C1_witness :
  isValid bookA = true /\
  (length (lines_for bookA (docs cartA)) <= 1)%nat /\
  quantity_for bookA (docs cartA) + 1 + 3 <= MAX_SAFE_INTEGER /\
  exists r1 c1 r2 c2 line,
    Cart.addCartItem idB t1 (Cart.mkItemData bookA 1) cartA = (Ok r1, c1) /\
    Cart.addCartItem idC t2 (Cart.mkItemData bookA 3) c1 = (Ok r2, c2) /\
    lines_for bookA (docs c2) = [line] /\
    r2 = Cart.mapMongoId line /\
    Cart.quantity (doc line) = quantity_for bookA (docs cartA) + 1 + 3.
Proof.
  assert (quantity_for bookA (docs cartA) = 2) as Hstart by reflexivity.
  assert (- MAX_SAFE_INTEGER <= quantity_for bookA (docs cartA)) as Hlo
    by (rewrite Hstart; unfold MAX_SAFE_INTEGER; lia).
  assert (quantity_for bookA (docs cartA) + 1 + 3 <= MAX_SAFE_INTEGER) as Hhi
    by (rewrite Hstart; unfold MAX_SAFE_INTEGER; lia).
  split; [reflexivity|]. split; [vm_compute; lia|]. split; [exact Hhi|].
  destruct (C1_add_twice_merges bookA 1 3 idB idC t1 t2 cartA)
    as (r1 & c1 & r2 & c2 & line & H1 & H2 & Hline & Hr2 & Hsum).
  - reflexivity.
  - lia.
  - lia.
  - vm_compute. lia.
  - evaluate.
  - evaluate.
  - exists r1, c1, r2, c2, line.
    split; [exact H1|]. split; [exact H2|]. split; [exact Hline|].
    split; [exact Hr2|]. exact (Hsum Hlo Hhi).
Defined.

(** Two additions of one copy to a line that holds
    [Number.MAX_SAFE_INTEGER] copies: the first sum is [2 ^ 53], the
    second, [2 ^ 53 + 1], is not a double and rounds back to [2 ^ 53];
    the line ends one short of the starting quantity plus 1 plus 1. *)
Lemma C1_counterexample :
  isValid bookA = true /\
  0 < 1 /\
  (length (lines_for bookA (docs cartMax)) <= 1)%nat /\
  NoDup (ids (docs cartMax)) /\
  (idB ∉ ids (docs cartMax)) /\
  quantity_for bookA (docs cartMax) = 9007199254740991 /\
  Cart.addCartItem idB t1 (Cart.mkItemData bookA 1) cartMax
  = (Ok (Cart.mkCartItem "aaaaaaaaaaaaaaaaaaaaaaaa" bookA 9007199254740992 t0),
     mkColl [mkDoc idA (Cart.mkCartDoc (oid_of bookA) 9007199254740992 t0)] 2) /\
  Cart.addCartItem idC t2 (Cart.mkItemData bookA 1)
    (mkColl [mkDoc idA (Cart.mkCartDoc (oid_of bookA) 9007199254740992 t0)] 2)
  = (Ok (Cart.mkCartItem "aaaaaaaaaaaaaaaaaaaaaaaa" bookA 9007199254740992 t0),
     mkColl [mkDoc idA (Cart.mkCartDoc (oid_of bookA) 9007199254740992 t0)] 4) /\
  lines_for bookA [mkDoc idA (Cart.mkCartDoc (oid_of bookA) 9007199254740992 t0)]
  = [mkDoc idA (Cart.mkCartDoc (oid_of bookA) 9007199254740992 t0)] /\
  9007199254740992 <> 9007199254740991 + 1 + 1.
Proof.
  split; [reflexivity|]. split; [lia|]. split; [vm_compute; lia|].
  split; [evaluate|]. split; [evaluate|]. split; [reflexivity|].
  split; [reflexivity|]. split; [reflexivity|]. split; [reflexivity|lia].
Qed.

(** Adding book A again to the cart of books A and B. *)
Lemma C2_witness :
  unique_books (docs cartAB) /\
  unique_books
    (docs (exec (AddCartItem idC t2 (Cart.mkItemData bookA 3)) cartAB)).
Proof.
  assert (unique_books (docs cartAB)) as Hinv
    by evaluate.
  split; [exact Hinv|].
  exact (proj1 (proj2 C2_unique_books_invariant) _ cartAB Hinv).
Defined.

(** A malformed [bookId] with a good quantity is answered with status
    500, not 400; and [addCartItem] given the quantity 0 returns and
    stores a line of quantity 0 instead of failing. *)
Lemma C3_counterexample :
  isValid malformed = false /\
  CartRoute.POST idA t0 (CartRoute.mkBody (Some malformed) (JNumber 1)) emptyCart
  = (CartRoute.mkResponse 500
       (CartRoute.ErrorMessage "An error occurred while adding the item to the cart."),
     emptyCart) /\
  Cart.addCartItem idA t0 (Cart.mkItemData bookA 0) emptyCart
  = (Ok (Cart.mkCartItem "aaaaaaaaaaaaaaaaaaaaaaaa" bookA 0 t0),
     mkColl [mkDoc idA (Cart.mkCartDoc (oid_of bookA) 0 t0)] 3).
Proof. repeat split; reflexivity. Qed.

Lemma C3_witness :
  isValid malformed = false /\
  not_a_positive_number (JNumber 0) /\
  Cart.addCartItem idC t2 (Cart.mkItemData malformed 2) cartA
  = (Throw InvalidBookID, cartA) /\
  snd (CartRoute.POST idC t2 (CartRoute.mkBody (Some malformed) (JNumber 2)) cartA)
  = cartA /\
  exists msg,
    CartRoute.POST idC t2 (CartRoute.mkBody (Some bookA) (JNumber 0)) cartA
    = (CartRoute.mkResponse 400 (CartRoute.ErrorMessage msg), cartA).
Proof.
  assert (isValid malformed = false) as Hbad by reflexivity.
  assert (not_a_positive_number (JNumber 0)) as Hzero by (simpl; lia).
  destruct (C3_rejected_additions idC t2 cartA) as (Hsvc & Hroute & Hqty).
  split; [exact Hbad|]. split; [exact Hzero|].
  split; [exact (Hsvc malformed 2 Hbad)|].
  split; [exact (proj1 (Hroute malformed (JNumber 2) Hbad))|].
  exact (Hqty (Some bookA) (JNumber 0) Hzero).
Defined.

(** A malformed [bookId] next to a new title: the call is not rejected,
    the title is changed and the book reference kept. *)
Lemma C4_counterexample :
  isValid malformed = false /\
  Reviews.updateReview "aaaaaaaaaaaaaaaaaaaaaaaa" retitle reviewsA
  = (Ok (Some (Reviews.mkReview "aaaaaaaaaaaaaaaaaaaaaaaa" bookA
                 "Ann" 4 "Changed" "Nice read" t0 false)),
     mkColl [mkDoc idA (Reviews.mkReviewDoc (oid_of bookA)
                          "Ann" 4 "Changed" "Nice read" t0 false)] 1).
Proof. split; reflexivity. Qed.

Lemma C4_witness :
  isValid "aaaaaaaaaaaaaaaaaaaaaaaa" = true /\
  bookId_omitted_or_malformed retitle /\
  exists o,
    newObjectId "aaaaaaaaaaaaaaaaaaaaaaaa" = Some o /\
    Reviews.updateReview "aaaaaaaaaaaaaaaaaaaaaaaa" retitle reviewsA =
      (Ok (Reviews.mapMongoId <$>
             (updated (Reviews.set_fields (restOfUpdates retitle)) <$>
                List.find (by_id o) (docs reviewsA))),
       mkColl (update_first (by_id o) (Reviews.set_fields (restOfUpdates retitle))
                 (docs reviewsA))
              (1 + roundtrips reviewsA)).
Proof.
  assert (isValid "aaaaaaaaaaaaaaaaaaaaaaaa" = true) as Hid by reflexivity.
  assert (bookId_omitted_or_malformed retitle) as Hb by reflexivity.
  split; [exact Hid|]. split; [exact Hb|].
  destruct (C4_update_ignores_unusable_bookId _ retitle reviewsA Hid Hb)
    as (o & Ho & Hupd & _).
  exists o. split; [exact Ho|exact Hupd].
Defined.

Lemma C5_witness :
  isValid malformed = false /\
  Books.getBookById malformed emptyBooks = (Ok None, emptyBooks) /\
  Reviews.getReviewsByBookId malformed reviewsA = (Ok None, reviewsA) /\
  Cart.removeCartItem malformed cartAB = (Ok false, cartAB).
Proof.
  assert (isValid malformed = false) as Hbad by reflexivity.
  destruct (C5_malformed_short_circuits malformed Hbad)
    as (Hget & _ & _ & _ & Hby & _ & _ & _ & Hrm).
  split; [exact Hbad|]. split; [apply Hget|]. split; [apply Hby|apply Hrm].
Defined.

(** Setting the quantity of the line of book A to 0 and to 7. *)
Lemma C6_witness :
  isValid "aaaaaaaaaaaaaaaaaaaaaaaa" = true /\
  NoDup (ids (docs cartAB)) /\
  Cart.updateCartItemQuantity "aaaaaaaaaaaaaaaaaaaaaaaa" 0 cartAB
  = (Ok None, snd (Cart.removeCartItem "aaaaaaaaaaaaaaaaaaaaaaaa" cartAB)) /\
  exists pre post c',
    docs cartAB = pre ++ mkDoc idA (Cart.mkCartDoc (oid_of bookA) 2 t0) :: post /\
    Cart.updateCartItemQuantity "aaaaaaaaaaaaaaaaaaaaaaaa" 7 cartAB
    = (Ok (Some (Cart.mkCartItem "aaaaaaaaaaaaaaaaaaaaaaaa" bookA 7 t0)), c') /\
    docs c' = pre ++ mkDoc idA (Cart.mkCartDoc (oid_of bookA) 7 t0) :: post.
Proof.
  assert (isValid "aaaaaaaaaaaaaaaaaaaaaaaa" = true) as Hid by reflexivity.
  assert (NoDup (ids (docs cartAB))) as Hnd
    by evaluate.
  split; [exact Hid|]. split; [exact Hnd|].
  split.
  - destruct (C6_update_quantity _ 0 cartAB Hid Hnd) as (o & _ & Hrm & _).
    apply Hrm. lia.
  - destruct (C6_update_quantity _ 7 cartAB Hid Hnd) as (o & Ho & _ & Hset & _).
    assert (Some o = Some idA) as [= ->] by (rewrite <- Ho; reflexivity).
    apply (Hset ltac:(lia) (mkDoc idA (Cart.mkCartDoc (oid_of bookA) 2 t0))).
    + by left.
    + reflexivity.
Defined.

Lemma C7_witness :
  isValid malformed = false /\
  Cart.removeCartItem malformed cartA = (Ok false, cartA).
Proof.
  assert (isValid malformed = false) as Hbad by reflexivity.
  destruct (C7_remove_reports malformed cartA) as (r & c' & Hrun & _ & _ & Hinv & _).
  destruct (Hinv Hbad) as [-> ->].
  split; [exact Hbad|exact Hrun].
Defined.

Lemma C8_witness :
  (idB ∉ ids (docs reviewsA)) /\
  isValid (Reviews.in_bookId reviewInput) = true /\
  exists r c',
    Reviews.createReview idB t2 reviewInput reviewsA = (Ok r, c') /\
    Reviews.r_timestamp r = t2 /\
    Reviews.r_verified r = false.
Proof.
  assert (idB ∉ ids (docs reviewsA)) as Hfresh
    by evaluate.
  assert (isValid (Reviews.in_bookId reviewInput) = true) as Hb by reflexivity.
  split; [exact Hfresh|]. split; [exact Hb|].
  destruct (proj1 (C8_create_stamps_and_defaults idB t2 reviewsA Hfresh) reviewInput Hb)
    as (o & r & c' & _ & Hrun & _ & _ & Hts & Hv).
  exists r, c'. split; [exact Hrun|]. split; [exact Hts|exact Hv].
Defined.

Lemma C9_witness :
  (idA ∉ ids (docs emptyBooks)) /\
  exists book c1 c2,
    Books.createBook idA bookInput emptyBooks = (Ok book, c1) /\
    book = Books.mkBook (toHexString idA) bookInput /\
    Books.getBookById (Books.id book) c1 = (Ok (Some book), c2).
Proof.
  assert (idA ∉ ids (docs emptyBooks)) as Hfresh
    by evaluate.
  split; [exact Hfresh|].
  exact (C9_create_then_get idA bookInput emptyBooks Hfresh).
Defined.

(** Adding one more copy of book B to the cart of books A and B. *)
Lemma C10_witness :
  isValid bookB = true /\
  NoDup (ids (docs cartAB)) /\
  lines_for bookB (docs cartAB) <> [] /\
  exists pre e post newQuantity c',
    docs cartAB = pre ++ e :: post /\ is_line_for bookB e /\
    lines_for bookB pre = [] /\
    Cart.addCartItem idC t2 (Cart.mkItemData bookB 1) cartAB
    = (Ok (Cart.mapMongoId
             (mkDoc (_id e)
                (Cart.mkCartDoc (Cart.bookId (doc e)) newQuantity
                   (Cart.addedAt (doc e))))), c') /\
    docs c' = pre ++ mkDoc (_id e)
                (Cart.mkCartDoc (Cart.bookId (doc e)) newQuantity
                   (Cart.addedAt (doc e))) :: post /\
    (- MAX_SAFE_INTEGER <= Cart.quantity (doc e) + 1 <= MAX_SAFE_INTEGER ->
     newQuantity = Cart.quantity (doc e) + 1).
Proof.
  assert (isValid bookB = true) as Hb by reflexivity.
  assert (NoDup (ids (docs cartAB))) as Hnd by evaluate.
  assert (lines_for bookB (docs cartAB) <> []) as Hline by (intros Heq; discriminate Heq).
  split; [exact Hb|]. split; [exact Hnd|]. split; [exact Hline|].
  exact (proj1 (C10_merge_changes_only_quantity bookB 1 idC t2 cartAB Hb Hnd) Hline).
Defined.
End Instances.

(** ** The further properties at sample data *)

Module MoreInstances.
Import Hex24 Sample.

Ltac evaluate := apply (bool_decide_unpack _); vm_compute; exact I.

Definition hexA : string := "aaaaaaaaaaaaaaaaaaaaaaaa".
Definition lineA : WithId Cart.CartItemDocument :=
  mkDoc idA (Cart.mkCartDoc (oid_of bookA) 2 t0).
Definition lineB : WithId Cart.CartItemDocument :=
  mkDoc idB (Cart.mkCartDoc (oid_of bookB) 1 t1).
Definition itemA : Cart.CartItem := Cart.mkCartItem hexA bookA 2 t0.
Definition itemB : Cart.CartItem :=
  Cart.mkCartItem "bbbbbbbbbbbbbbbbbbbbbbbb" bookB 1 t1.

(** One book, stored under [idA]. *)
Definition booksA : Books.BookColl := mkColl [mkDoc idA bookInput] 0.

(** The catalog holds book A under the identifier the cart refers to. *)
Definition catalogA : Books.BookColl := mkColl [mkDoc (oid_of bookA) bookInput] 0.

Definition reprice : Books.BookUpdates :=
  Books.mkBookUpdates None None None (Some (1499 # 100)) None None None None
    None None None None None None (Some false) None.

Definition completeBody : Books.BookUpdates :=
  Books.mkBookUpdates (Some "Dune") (Some "Frank Herbert") (Some "A desert planet.")
    (Some (1999 # 100)) (Some "/images/dune.jpg") (Some "9780441013593")
    (Some ["Science Fiction"]) (Some ["classic"; "epic"]) (Some "1965-08-01")
    (Some 412) (Some "English") (Some "Chilton Books") (Some (9 # 2)) (Some 120)
    (Some true) (Some false).

Definition reviewDocA : WithId Reviews.ReviewDocument :=
  mkDoc idA (Reviews.mkReviewDoc (oid_of bookA) "Ann" 4 "Good" "Nice read" t0 false).

Definition moveToB : Reviews.ReviewUpdates :=
  Reviews.mkReviewUpdates (Some bookB) None None None None None None.

Definition badReview : Reviews.ReviewData :=
  Reviews.mkReviewData malformed "Bob" 5 "Great" "Loved it" t0 None.

Definition localBooks : list Books.Book :=
  [Books.mkBook "1" bookInput; Books.mkBook "2" bookInput].

Definition localReviews : list Reviews.Review :=
  [Reviews.mkReview "r1" "2" "Ann" 4 "Good" "Nice read" t0 true;
   Reviews.mkReview "r2" "9" "Bob" 2 "Meh" "Not for me" t1 false].

Lemma X2_witness :
  (exists d, d ∈ docs cartAB /\ _id d = idA /\
             Cart.bookId (doc d) = oid_of bookA /\ Cart.addedAt (doc d) = t0) \/
  (exists newId now itemData o,
     AddCartItem idC t2 (Cart.mkItemData bookA 3) = AddCartItem newId now itemData /\
     newObjectId (Cart.data_bookId itemData) = Some o /\
     mkDoc idA (Cart.mkCartDoc (oid_of bookA) 5 t0)
     = mkDoc newId (Cart.mkCartDoc o (Cart.data_quantity itemData) now)).
Proof.
  apply (X2_cart_lines_keep_identity
           (AddCartItem idC t2 (Cart.mkItemData bookA 3)) cartAB
           (mkDoc idA (Cart.mkCartDoc (oid_of bookA) 5 t0))).
  assert (docs (exec (AddCartItem idC t2 (Cart.mkItemData bookA 3)) cartAB)
          = [mkDoc idA (Cart.mkCartDoc (oid_of bookA) 5 t0); lineB]) as -> by reflexivity.
  by left.
Defined.

Lemma X3_witness :
  exists c2 c3,
    Cart.removeCartItem hexA (mkColl [lineA; lineB] 1) = (Ok true, c2) /\
    Cart.getCart c2
    = (Ok (filter (fun x => Cart.item_id x <> hexA) [itemA; itemB]), c3).
Proof.
  apply (X3_listed_line_can_be_removed cartAB [itemA; itemB]
           (mkColl [lineA; lineB] 1) itemA).
  - evaluate.
  - reflexivity.
  - by left.
Defined.

Lemma X4_witness :
  exists c2,
    Cart.updateCartItemQuantity hexA 1
      (snd (Cart.addCartItem idC t2 (Cart.mkItemData bookA 3) cartA))
    = (Ok (Some (Cart.mkCartItem hexA bookA 1 t0)), c2).
Proof.
  apply (X4_set_after_add idC t2 bookA 3 1 cartA (Cart.mkCartItem hexA bookA 5 t0)).
  - evaluate.
  - reflexivity.
  - lia.
Defined.

Lemma X5_witness :
  exists c2,
    Cart.removeCartItem "cccccccccccccccccccccccc"
      (snd (Cart.addCartItem idC t2 (Cart.mkItemData bookB 1) cartA))
    = (Ok true, c2) /\
    lines_for bookB (docs c2) = [] /\
    (lines_for bookB (docs cartA) = [] -> docs c2 = docs cartA).
Proof.
  apply (X5_remove_after_add idC t2 bookB 1 cartA
           (Cart.mkCartItem "cccccccccccccccccccccccc" bookB 1 t2)).
  - evaluate.
  - evaluate.
  - reflexivity.
Defined.

Lemma X6_witness :
  exists r c1 c2,
    Cart.removeCartItem hexA cartAB = (Ok r, c1) /\
    Cart.removeCartItem hexA c1 = (Ok false, c2) /\
    docs c2 = docs c1.
Proof. apply (X6_remove_twice hexA cartAB). evaluate. Defined.

Lemma X8_witness :
  exists q,
    JNumber 3 = JNumber q /\ 0 < q /\
    Navbar.fetchCartCount
      (fst (CartHandlers.GET
              (snd (CartRoute.POST idC t2 (CartRoute.mkBody (Some bookA) (JNumber 3)) cartA))))
    = Navbar.fetchCartCount (fst (CartHandlers.GET cartA)) + q.
Proof.
  apply (X8_badge_grows_by_posted_quantity idC t2
           (CartRoute.mkBody (Some bookA) (JNumber 3)) cartA
           "Item added/updated in cart successfully" (Cart.mkCartItem hexA bookA 5 t0)).
  - evaluate.
  - repeat constructor. simpl. lia.
  - intros q [= <-]. unfold MAX_SAFE_INTEGER. simpl. lia.
  - reflexivity.
Defined.

Lemma X9_witness :
  CartHandlers.PUT (CartHandlers.mkPutBody (Some malformed) (JNumber 0)) cartAB
  = (CartHandlers.mkResponse 200
       (CartHandlers.Message "Cart item removed successfully (quantity set to 0)"),
     snd (Cart.removeCartItem malformed cartAB)).
Proof.
  assert (malformed <> "") as Hne by discriminate.
  exact (proj1 (X9_put_outcomes malformed cartAB Hne)).
Defined.

Lemma X10_witness :
  exists st p c',
    CartHandlers.DELETE (CartHandlers.mkDeleteQuery (Some hexA) (Some "true")) cartAB
    = (CartHandlers.mkResponse st p, c') /\
    ((st = 200%nat /\ S (length (docs c')) = length (docs cartAB)) \/
     (st = 404%nat /\ docs c' = docs cartAB)).
Proof.
  assert (hexA <> "") as Hne by discriminate.
  exact (proj1 (X10_delete_outcomes cartAB) hexA (Some "true") Hne).
Defined.

Lemma X11_witness :
  exists c1 c2,
    Books.updateBook hexA reprice booksA
    = (Ok (Some (Books.mkBook (toHexString idA) (Books.set_fields reprice bookInput))), c1) /\
    docs c1 = [] ++ mkDoc idA (Books.set_fields reprice bookInput) :: [] /\
    Books.getBookById hexA c1
    = (Ok (Some (Books.mkBook (toHexString idA) (Books.set_fields reprice bookInput))), c2).
Proof.
  apply (X11_update_then_get hexA reprice booksA [] (mkDoc idA bookInput) []).
  - evaluate.
  - reflexivity.
  - reflexivity.
Defined.

Lemma X12_witness :
  exists o r c1 c2,
    newObjectId hexA = Some o /\
    Books.deleteBook hexA booksA = (Ok r, c1) /\
    (r = true <-> o ∈ ids (docs booksA)) /\
    Books.getBookById hexA c1 = (Ok None, c2) /\
    (forall d, d ∈ docs booksA -> _id d <> o -> d ∈ docs c1).
Proof.
  apply (X12_delete_then_get hexA booksA).
  - evaluate.
  - reflexivity.
Defined.

Lemma X13_witness :
  exists books c0 book c1 c2,
    Books.getAllBooks booksA = (Ok books, c0) /\
    Books.createBook idB bookInput c0 = (Ok book, c1) /\
    Books.getAllBooks c1 = (Ok (books ++ [book]), c2).
Proof. apply (X13_created_book_is_listed_last idB bookInput booksA). evaluate. Defined.

Lemma X14_witness :
  exists c',
    BookIdRoute.DELETE hexA booksA
    = (BookIdRoute.mkResponse 200 (BookIdRoute.Message "Book deleted successfully"), c') /\
    (idA ∉ ids (docs c')) /\
    (forall d, d ∈ docs booksA -> _id d <> idA -> d ∈ docs c').
Proof.
  assert (NoDup (ids (docs booksA))) as Hnd by evaluate.
  apply (proj1 (proj2 (proj2 (X14_delete_book_route booksA Hnd))) hexA idA).
  - discriminate.
  - reflexivity.
  - by left.
Defined.

Lemma X15_witness :
  exists c',
    BooksRoute.POST idB completeBody booksA
    = (BooksRoute.mkResponse 200
         (BooksRoute.NewBookMessage "Book added successfully"
            (Books.mkBook (toHexString idB) bookInput)), c') /\
    docs c' = docs booksA ++ [mkDoc idB bookInput].
Proof.
  apply (proj2 (X15_post_book idB completeBody booksA) bookInput).
  - reflexivity.
  - evaluate.
Defined.

Lemma X16_witness :
  exists c',
    Reviews.createReview idB t2 badReview reviewsA = (Throw BSONError, c') /\
    docs c' = docs reviewsA.
Proof.
  assert (isValid (Reviews.in_bookId badReview) = false) as Hbad by reflexivity.
  exact (proj1 (X16_create_review_malformed_book idB t2 reviewsA) badReview Hbad).
Defined.

Lemma X17_witness :
  exists before c0 r c1 after c2,
    Reviews.getReviewsByBookId bookA reviewsA = (Ok (Some before), c0) /\
    Forall (fun x => newObjectId (Reviews.r_bookId x) = newObjectId bookA) before /\
    Reviews.createReview idB t2 reviewInput c0 = (Ok r, c1) /\
    Reviews.getReviewsByBookId bookA c1 = (Ok (Some after), c2) /\
    (newObjectId bookA = newObjectId (Reviews.in_bookId reviewInput) ->
     after = before ++ [r]) /\
    (newObjectId bookA <> newObjectId (Reviews.in_bookId reviewInput) -> after = before).
Proof.
  apply (X17_created_review_is_listed idB t2 reviewInput reviewsA bookA).
  - reflexivity.
  - evaluate.
  - reflexivity.
Defined.

Lemma X18_witness :
  exists o' r c1 d',
    newObjectId bookB = Some o' /\
    Reviews.updateReview hexA moveToB reviewsA = (Ok (Some r), c1) /\
    r = Reviews.mapMongoId d' /\
    _id d' = _id reviewDocA /\
    Reviews.bookId (doc d') = o' /\
    Reviews.r_bookId r = toHexString o' /\
    docs c1 = [] ++ d' :: [].
Proof.
  apply (X18_update_moves_review hexA moveToB bookB reviewsA [] reviewDocA []).
  - evaluate.
  - reflexivity.
  - reflexivity.
  - reflexivity.
  - discriminate.
  - reflexivity.
Defined.

Lemma X19_witness :
  exists r c1 c2,
    Reviews.createReview idB t2 reviewInput reviewsA = (Ok r, c1) /\
    Reviews.getReviewById (Reviews.r_id r) c1 = (Ok (Some r), c2).
Proof.
  apply (X19_create_review_then_get idB t2 reviewInput reviewsA).
  - reflexivity.
  - evaluate.
Defined.

Lemma X20_witness :
  exists st p c1 p' c2,
    ReviewIdRoute.DELETE hexA reviewsA = (ReviewIdRoute.mkResponse st p, c1) /\
    ((st = 200%nat /\ exists o, newObjectId hexA = Some o /\ o ∈ ids (docs reviewsA)) \/
     (st = 404%nat /\ docs c1 = docs reviewsA /\
      forall o, newObjectId hexA = Some o -> o ∉ ids (docs reviewsA))) /\
    ReviewIdRoute.GET hexA c1 = (ReviewIdRoute.mkResponse 404 p', c2) /\
    (forall d, d ∈ docs reviewsA -> newObjectId hexA <> Some (_id d) -> d ∈ docs c1).
Proof.
  apply (X20_delete_review_route hexA reviewsA).
  - evaluate.
  - discriminate.
Defined.

Lemma X21_witness :
  ReviewListRoute.GET (Some malformed) reviewsA
  = (ReviewListRoute.mkResponse 400
       (ReviewListRoute.ErrorMessage "Invalid Book ID format"), reviewsA).
Proof.
  apply (proj1 (proj2 (X21_get_reviews_route reviewsA)) malformed).
  - discriminate.
  - reflexivity.
Defined.

Lemma X22_witness :
  Mongodb.connectAll S [None; Some 9%nat] (Mongodb.mkCache (Some 7%nat) (Some 8%nat) 1)
  = (replicate (length [None; Some 9%nat]) (Some (7%nat, 8%nat)),
     Mongodb.mkCache (Some 7%nat) (Some 8%nat) 1).
Proof.
  apply (X22_connection_is_cached S (Some 7%nat) (Mongodb.mkCache None None 0)).
  reflexivity.
Defined.

Lemma X23_witness :
  (forall i b, localBooks !! i = Some b ->
     exists newId,
       [idA; idB] !! i = Some newId /\
       Seed.idMapping localBooks [idA; idB] !! Books.id b = Some newId) /\
  (forall k, k ∉ Books.id <$> localBooks ->
     Seed.idMapping localBooks [idA; idB] !! k = None).
Proof.
  apply (X23_idMapping_follows_positions localBooks [idA; idB]).
  - evaluate.
  - reflexivity.
Defined.

Lemma X24_witness :
  length (Seed.reviewsToInsert localReviews (Seed.idMapping localBooks [idA; idB]))
  = length (filter (fun review => Reviews.r_bookId review ∈ Books.id <$> localBooks)
              localReviews).
Proof.
  assert (NoDup (Books.id <$> localBooks)) as Hnd by evaluate.
  exact (proj2 (X24_seeded_reviews_reference_seeded_books localBooks [idA; idB]
                  localReviews Hnd eq_refl)).
Defined.

Lemma X25_witness :
  CartPage.combined [itemA; itemB] [Books.mkBook bookA bookInput]
  = omap (fun d =>
            match List.find (by_id (Cart.bookId (doc d))) (docs catalogA) with
            | Some b =>
                Some (CartPage.mkEntry (Books.mapMongoId b) (Cart.quantity (doc d))
                        (toHexString (_id d)))
            | None => None
            end) (docs cartAB).
Proof.
  apply (X25_cart_page_shows_lines_with_a_book cartAB catalogA [itemA; itemB]
           (mkColl [lineA; lineB] 1) [Books.mkBook bookA bookInput]
           (mkColl (docs catalogA) 1)).
  - evaluate.
  - reflexivity.
  - reflexivity.
Defined.
End MoreInstances.
